(** * LBANN layer headers: cross entropy and embedding

    A shallow embedding of

    - [include/lbann/layers/loss/cross_entropy.hpp]
    - [include/lbann/layers/learning/embedding.hpp]

    The two headers define the layer classes, their constructors, copy
    operations, type queries and (for the embedding layer) the dimension
    and data setup.  The base class [data_type_layer], the weights class
    and the Hydrogen (namespace [El]) matrix library are used by the
    headers but defined elsewhere; what the headers need from them is
    stated once, below, and marked as such. *)

From Stdlib Require Import ZArith Lia.
From Stdlib Require Import Floats.PrimFloat.
From stdpp Require Import base numbers option list strings gmap.

Local Open Scope Z_scope.

(** ** C++ integer types *)

Module Cxx.

(** [int] is a 32-bit signed integer.  Values of type [size_t] and
    [El::Int] are integers of [Z]; the conversions between the types
    are written out where the code has them. *)
Definition INT_MAX : Z := 2 ^ 31 - 1.

(** Conversion of an integer to a signed type of [bits] bits: the value
    is reduced modulo [2 ^ bits] into [- 2 ^ (bits - 1) .. 2 ^ (bits - 1) - 1]. *)
Definition to_signed (bits : Z) (x : Z) : Z :=
  (x + 2 ^ (bits - 1)) mod 2 ^ bits - 2 ^ (bits - 1).

(** [static_cast<int>(x)] *)
Definition static_cast_int (x : Z) : Z := to_signed 32 x.

End Cxx.

(** ** Build configuration

    The preprocessor symbols the two headers test, and the one Hydrogen
    symbol that fixes the width of [El::Int]. *)

Record build_config := BuildConfig {
  EL_USE_64BIT_INTS : bool;
  LBANN_HAS_HALF : bool;
  LBANN_HAS_GPU_FP16 : bool;
}.

(** ** Hydrogen types used by the headers (namespace [El]) *)

Module El.

Inductive Device := CPU | GPU.

Inductive Dist := MC | MD | MR | VC | VR | STAR | CIRC.

#[global] Instance Device_eq_dec : EqDecision Device.
Proof. solve_decision. Defined.

#[global] Instance Dist_eq_dec : EqDecision Dist.
Proof. solve_decision. Defined.

(** [El::Int] is [long long] when Hydrogen is built with 64-bit
    integers and [int] otherwise. *)
Definition Int_bits (cfg : build_config) : Z :=
  if EL_USE_64BIT_INTS cfg then 64 else 32.

Definition Int_MAX (cfg : build_config) : Z := 2 ^ (Int_bits cfg - 1) - 1.

(** [static_cast<El::Int>(x)] *)
Definition static_cast_Int (cfg : build_config) (x : Z) : Z :=
  Cxx.to_signed (Int_bits cfg) x.

(** [El::DistData]: the distribution of a distributed matrix.  The
    embedding layer reads the whole structure and overwrites
    [colDist] and [rowDist]. *)
Record DistData := mkDistData {
  colDist : Dist;
  rowDist : Dist;
  blockHeight : Z;
  blockWidth : Z;
  colAlign : Z;
  rowAlign : Z;
  colCut : Z;
  rowCut : Z;
  root : Z;
  grid : nat;
  device : Device;
}.

Definition set_colDist (d : Dist) (dd : DistData) : DistData :=
  mkDistData d (rowDist dd) (blockHeight dd) (blockWidth dd)
             (colAlign dd) (rowAlign dd) (colCut dd) (rowCut dd)
             (root dd) (grid dd) (device dd).

Definition set_rowDist (d : Dist) (dd : DistData) : DistData :=
  mkDistData (colDist dd) d (blockHeight dd) (blockWidth dd)
             (colAlign dd) (rowAlign dd) (colCut dd) (rowCut dd)
             (root dd) (grid dd) (device dd).

(** The element types a distributed matrix can carry; [dynamic_cast]
    to [AbstractDistMatrix<T>] succeeds exactly on the matrices whose
    element type is [T]. *)
Inductive elem_type := t_float | t_double | t_cpu_fp16 | t_fp16 | t_other (id : nat).

#[global] Instance elem_type_eq_dec : EqDecision elem_type.
Proof. solve_decision. Defined.

(** A distributed matrix, seen globally: its element type, its
    dimensions, its distribution and its entries ([Get A i j] is the
    entry in row [i] and column [j]).  Every value of the supported
    element types is a binary64 number, which is what [float] is. *)
Record AbstractDistMatrix := mkMatrix {
  elem : elem_type;
  Height : Z;
  Width : Z;
  DistData_of : DistData;
  Get : Z → Z → float;
}.

Definition TypeTraits_Zero : float := 0%float.
Definition TypeTraits_One : float := 1%float.

(** [El::View(B, A, El::ALL, El::IR(j))] followed by [El::Zero(B)]:
    all rows of column [j] of [A] are overwritten with zero.  The view
    is only defined on a column of [A]; outside, Hydrogen fails an
    assertion in debug builds and the write is out of bounds
    otherwise, which is [None] here. *)
Definition Zero_column (A : AbstractDistMatrix) (j : Z) : option AbstractDistMatrix :=
  if bool_decide (0 ≤ j < Width A) then
    Some (mkMatrix (elem A) (Height A) (Width A) (DistData_of A)
                   (λ r c, if bool_decide (c = j) then TypeTraits_Zero else Get A r c))
  else None.

(** [A.Copy()]: a new matrix with the same contents. *)
Definition Copy (A : AbstractDistMatrix) : AbstractDistMatrix := A.

End El.

(** ** Results of a member function

    A member function returns normally, throws the exception built by
    [LBANN_ERROR], or has no defined behaviour (a dangling pointer, an
    out-of-bounds view). *)

(** The errors: the two [LBANN_ERROR]s of [embedding_layer::setup_data]
    with the values their messages are built from, a failed
    [assert_always], and whatever the base class throws. *)
Inductive lbann_exception :=
  | invalid_number_of_weights (layer_type layer_name : string) (found : nat)
  | could_not_determine_type
  | assertion_failed (what : string)
  | base_class_error (what : string).

Inductive outcome (A : Type) :=
  | Ok (a : A)
  | Throw (e : lbann_exception)
  | Undefined.
Arguments Ok {A} a.
Arguments Throw {A} e.
Arguments Undefined {A}.

#[global] Instance outcome_ret : MRet outcome := λ A a, Ok a.
#[global] Instance outcome_bind : MBind outcome := λ A B f m,
  match m with
  | Ok a => f a
  | Throw e => Throw e
  | Undefined => Undefined
  end.

Definition or_undefined {A} (o : option A) : outcome A :=
  match o with Some a => Ok a | None => Undefined end.

Definition returns_normally {A} (m : outcome A) : Prop := ∃ a, m = Ok a.
Definition throws {A} (m : outcome A) : Prop := ∃ e, m = Throw e.

(** ** The layer interface ([lbann::Layer], [data_type_layer]) *)

Inductive data_layout := MODEL_PARALLEL | DATA_PARALLEL | invalid.

#[global] Instance data_layout_eq_dec : EqDecision data_layout.
Proof. solve_decision. Defined.

(** Objects held through pointers live in a store and are named by their
    address. *)
Definition loc := nat.

Inductive lbann_comm := comm_handle (id : nat).

(** Modelled from the spec: the base class of a layer ([Layer] and
    [data_type_layer], a node of the computation graph) is declared
    outside the two headers.  This is the part of its state that the
    headers read or write: the name, the number of parent layers the
    layer expects, the weights pointers, the input and output
    dimensions, the distribution of the previous activations and
    whether distconv is enabled for the layer. *)
Record Layer := mkLayer {
  m_name : string;
  m_expected_num_parent_layers : Z;
  m_weights : list loc;
  m_input_dims : list Z;
  m_output_dims : list Z;
  prev_activations_DistData : El.DistData;
  m_distconv_enabled : bool;
}.

(** Modelled from the spec: [Layer::get_name], missing with the base class. *)
Definition get_name (b : Layer) : string := m_name b.

(** Modelled from the spec: [Layer::get_input_dims], missing with the base class. *)
Definition get_input_dims (b : Layer) : list Z := m_input_dims b.

(** Modelled from the spec: [Layer::get_output_dims], missing with the base class. *)
Definition get_output_dims (b : Layer) : list Z := m_output_dims b.

(** Modelled from the spec: [Layer::distconv_enabled], missing with the base class. *)
Definition distconv_enabled (b : Layer) : bool := m_distconv_enabled b.

(** Modelled from the spec: [Layer::set_output_dims], missing with the base class. *)
Definition set_output_dims (dims : list Z) (b : Layer) : Layer :=
  mkLayer (m_name b) (m_expected_num_parent_layers b) (m_weights b)
          (m_input_dims b) dims (prev_activations_DistData b) (m_distconv_enabled b).

(** The assignment [this->m_expected_num_parent_layers = n]. *)
Definition set_expected_num_parent_layers (n : Z) (b : Layer) : Layer :=
  mkLayer (m_name b) n (m_weights b)
          (m_input_dims b) (m_output_dims b) (prev_activations_DistData b)
          (m_distconv_enabled b).

(** Modelled from the spec: [Layer::num_weights], missing with the base
    class; the number of weights pointers the layer holds. *)
Definition num_weights (b : Layer) : nat := length (m_weights b).

(** Modelled from the spec: [Layer::has_weights], missing with the base
    class; whether the layer holds a weights pointer. *)
Definition has_weights (b : Layer) : bool := bool_decide (num_weights b ≠ 0%nat).

(** Modelled from the spec: [Layer::add_weights], missing with the base
    class; the pointer is added at the end. *)
Definition add_weights (w : loc) (b : Layer) : Layer :=
  mkLayer (m_name b) (m_expected_num_parent_layers b) (m_weights b ++ [w])
          (m_input_dims b) (m_output_dims b) (prev_activations_DistData b)
          (m_distconv_enabled b).

(** Modelled from the spec: the copy constructor of the base class,
    missing with it; the members kept here are copied. *)
Definition data_type_layer_copy (other : Layer) : Layer := other.

(** Modelled from the spec: the copy assignment of the base class,
    missing with it; the members kept here are copied. *)
Definition data_type_layer_assign (this other : Layer) : Layer := other.

(** The interface every layer class implements: the type queries and
    the forward and backward computations, which act on the state [Tensors]
    of the tensors the layer is connected to. *)
Class LayerInterface (L Tensors : Type) := {
  get_type : L → string;
  get_data_layout : L → data_layout;
  get_device_allocation : L → El.Device;
  fp_compute : L → Tensors → outcome Tensors;
  bp_compute : L → Tensors → outcome Tensors;
}.

(** ** Weights and the model that owns them *)

(** The initializers of weights: the normal one, with its mean and
    standard deviation, and the others. *)
Inductive weights_initializer :=
  | normal_initializer (mean standard_deviation : float)
  | other_initializer (id : nat).

Inductive optimizer := optimizer_object (id : nat).

(** Modelled from the spec: the weights class (the trained weight
    matrix of a layer) is declared outside the two headers.  A
    [data_type_weights<TensorDataType>] object: the element type it
    was instantiated with, its name, initializer and optimizer, the
    dimensions and the distribution of its matrix, and the matrix of
    values once [setup] has built it. *)
Record weights := mkWeights {
  w_comm : lbann_comm;
  w_elem : El.elem_type;
  w_name : string;
  w_initializer : option weights_initializer;
  w_optimizer : option optimizer;
  w_matrix_height_dims : list Z;
  w_matrix_width_dims : list Z;
  w_matrix_dist : El.DistData;
  w_values : option El.AbstractDistMatrix;
}.

(** Modelled from the spec: [weights::set_name], missing with the
    weights class. *)
Definition set_name (n : string) (w : weights) : weights :=
  mkWeights (w_comm w) (w_elem w) n (w_initializer w) (w_optimizer w)
            (w_matrix_height_dims w) (w_matrix_width_dims w) (w_matrix_dist w) (w_values w).

(** Modelled from the spec: [weights::set_initializer], missing with the
    weights class. *)
Definition set_initializer (i : option weights_initializer) (w : weights) : weights :=
  mkWeights (w_comm w) (w_elem w) (w_name w) i (w_optimizer w)
            (w_matrix_height_dims w) (w_matrix_width_dims w) (w_matrix_dist w) (w_values w).

(** Modelled from the spec: [weights::set_optimizer], missing with the
    weights class. *)
Definition set_optimizer (o : option optimizer) (w : weights) : weights :=
  mkWeights (w_comm w) (w_elem w) (w_name w) (w_initializer w) o
            (w_matrix_height_dims w) (w_matrix_width_dims w) (w_matrix_dist w) (w_values w).

(** Modelled from the spec: [weights::set_dims], missing with the
    weights class; the height and the width dimensions of the matrix. *)
Definition set_dims (height_dims width_dims : list Z) (w : weights) : weights :=
  mkWeights (w_comm w) (w_elem w) (w_name w) (w_initializer w) (w_optimizer w)
            height_dims width_dims (w_matrix_dist w) (w_values w).

(** Modelled from the spec: [weights::set_matrix_distribution], missing
    with the weights class. *)
Definition set_matrix_distribution (d : El.DistData) (w : weights) : weights :=
  mkWeights (w_comm w) (w_elem w) (w_name w) (w_initializer w) (w_optimizer w)
            (w_matrix_height_dims w) (w_matrix_width_dims w) d (w_values w).

(** Modelled from the spec: a write through the reference that
    [weights::get_values_sharded] returns; the values are replaced. *)
Definition set_values (A : El.AbstractDistMatrix) (w : weights) : weights :=
  mkWeights (w_comm w) (w_elem w) (w_name w) (w_initializer w) (w_optimizer w)
            (w_matrix_height_dims w) (w_matrix_width_dims w) (w_matrix_dist w) (Some A).

(** Modelled from the spec: [weights::get_matrix_height], missing with
    the weights class; the product of the height dimensions. *)
Definition get_matrix_height (w : weights) : Z := foldr Z.mul 1 (w_matrix_height_dims w).

(** Modelled from the spec: [weights::get_matrix_width], missing with the
    weights class; the product of the width dimensions. *)
Definition get_matrix_width (w : weights) : Z := foldr Z.mul 1 (w_matrix_width_dims w).

(** Modelled from the spec: [weights::get_values_sharded], missing with
    the weights class; null before [setup]. *)
Definition get_values_sharded (w : weights) : option El.AbstractDistMatrix := w_values w.

(** Modelled from the spec: the model class is declared outside the
    two headers.  The model a layer belongs to ([m_model]): its communicator, which
    is the one [get_comm] of the layer answers, the weights it has
    registered and the optimizer its [create_optimizer] hands out (none
    when the model has no default optimizer). *)
Record model := mkModel {
  model_comm : lbann_comm;
  model_weights : list loc;
  model_default_optimizer : option optimizer;
}.

(** Modelled from the spec: [Layer::get_comm], missing with the base
    class; the communicator of the model the layer belongs to. *)
Definition get_comm (m : model) : lbann_comm := model_comm m.

(** Modelled from the spec: [model::create_optimizer], missing with the
    model class. *)

Definition create_optimizer (m : model) : option optimizer := model_default_optimizer m.

(** Modelled from the spec: [model::add_weights], missing with the model
    class; the pointer is added at the end. *)
Definition model_add_weights (w : loc) (m : model) : model :=
  mkModel (model_comm m) (model_weights m ++ [w]) (model_default_optimizer m).

(** The objects a layer shares with its model: the model itself and the
    store of weights objects, which the layer and the model both point
    into. *)
Record world := mkWorld {
  the_model : model;
  weights_store : gmap loc weights;
}.

(** [std::make_shared]: the new object gets an address not in use. *)
Definition make_shared (w : weights) (σ : world) : loc * world :=
  let p := fresh (dom (weights_store σ)) in
  (p, mkWorld (the_model σ) (<[p := w]> (weights_store σ))).

(** ** Code the headers call and do not define

    The constructor, [setup_dims] and [setup_data] of the base class,
    the state a newly constructed weights object starts in (everything
    but its communicator and element type), the values the initializer
    of a weights object writes when [setup] builds its matrix, and the
    numerical kernels of the two layers over the tensor state [Tensors]. *)
Class external_code (Tensors : Type) := {
  data_type_layer_ctor : option lbann_comm → Layer;
  data_type_layer_setup_dims : Layer → Layer;
  data_type_layer_setup_data : Z → Layer → outcome Layer;
  weights_ctor_dist : El.DistData;
  initializer_values : weights → Z → Z → float;
  cross_entropy_fp_compute : bool → Tensors → outcome Tensors;
  cross_entropy_bp_compute : bool → Tensors → outcome Tensors;
  embedding_fp_compute : Z → Z → Z → Tensors → outcome Tensors;
  embedding_bp_compute : Z → Z → Z → Tensors → outcome Tensors;
  distconv_forward : Tensors → outcome Tensors;
  distconv_backward : Tensors → outcome Tensors;
}.

(** Modelled from the spec: the constructor [WeightsType(comm)], missing
    with the weights class; the object has no name, initializer,
    optimizer, dimensions or values yet. *)
Definition weights_ctor `{external_code Tensors} (comm : lbann_comm) (T : El.elem_type) : weights :=
  mkWeights comm T EmptyString None None [] [] weights_ctor_dist None.

(** Modelled from the spec: [weights::setup], missing with the weights
    class; the matrix of values is built with the dimensions and the
    distribution set before, and filled by the initializer. *)
Definition setup `{external_code Tensors} (w : weights) : weights :=
  set_values (El.mkMatrix (w_elem w) (get_matrix_height w) (get_matrix_width w)
                          (w_matrix_dist w) (initializer_values w)) w.

(** ** Descriptions of layers *)

(** Modelled from the spec: the class [description] is declared outside
    the two headers.  A description is the list of its fields in the
    order they were added, each a name with the value given for it. *)
Inductive description_value :=
  | value_size_t (n : Z)
  | value_Int (n : Z).

Definition description : Type := list (string * description_value).

(** Modelled from the spec: [description::add], missing with the class;
    the field is added after those present. *)
Definition description_add (field : string) (v : description_value)
    (d : description) : description :=
  d ++ [(field, v)].

(** [get_description] of the base class, which the headers call and do
    not define. *)
Class external_description := {
  data_type_layer_get_description : Layer → description;
}.

(** ** The embedding layer *)

Module embedding_layer.

(** The class template: one type of layers for each choice of the
    template parameters. *)
Record t (TensorDataType : El.elem_type) (Layout : data_layout) (Device : El.Device) := mk {
  base : Layer;
  m_num_embeddings : Z;
  m_embedding_dim : Z;
  m_padding_idx : Z;
}.
Arguments mk {TensorDataType Layout Device}.
Arguments base {TensorDataType Layout Device}.
Arguments m_num_embeddings {TensorDataType Layout Device}.
Arguments m_embedding_dim {TensorDataType Layout Device}.
Arguments m_padding_idx {TensorDataType Layout Device}.

Section template.

Context {TensorDataType : El.elem_type} {Layout : data_layout} {Device : El.Device}.
Context {Tensors : Type} `{!external_code Tensors}.

Local Abbreviation t := (t TensorDataType Layout Device).

(** [static_assert(Layout == data_layout::DATA_PARALLEL, ...)] *)
Definition static_assert_layout (this : t) : Prop := Layout = DATA_PARALLEL.

Definition with_base (b : Layer) (l : t) : t :=
  mk b (m_num_embeddings l) (m_embedding_dim l) (m_padding_idx l).

(** [embedding_layer(num_embeddings, embedding_dim, padding_idx)] *)
Definition ctor (num_embeddings embedding_dim padding_idx : Z) : t :=
  mk (data_type_layer_ctor None) num_embeddings embedding_dim padding_idx.

(** [embedding_layer()] *)
Definition default_ctor : t := ctor 0 0 0.

(** [embedding_layer(const embedding_layer& other)] *)
Definition copy_ctor (other : t) : t :=
  mk (data_type_layer_copy (base other))
     (m_num_embeddings other) (m_embedding_dim other) (m_padding_idx other).

(** [operator=] *)
Definition assign (this other : t) : t :=
  let this := with_base (data_type_layer_assign (base this) (base other)) this in
  let this : t :=
    mk (base this) (m_num_embeddings other) (m_embedding_dim this) (m_padding_idx this) in
  let this : t :=
    mk (base this) (m_num_embeddings this) (m_embedding_dim other) (m_padding_idx this) in
  let this : t :=
    mk (base this) (m_num_embeddings this) (m_embedding_dim this) (m_padding_idx other) in
  this.

Definition copy (this : t) : t := copy_ctor this.

Definition get_type (this : t) : string := "embedding".
Definition get_data_layout (this : t) : data_layout := Layout.
Definition get_device_allocation (this : t) : El.Device := Device.
Definition can_run_inplace (this : t) : bool := false.

Definition fp_compute (this : t) : Tensors → outcome Tensors :=
  embedding_fp_compute (m_num_embeddings this) (m_embedding_dim this) (m_padding_idx this).
Definition bp_compute (this : t) : Tensors → outcome Tensors :=
  embedding_bp_compute (m_num_embeddings this) (m_embedding_dim this) (m_padding_idx this).

#[global] Instance layer_interface : LayerInterface t Tensors :=
  Build_LayerInterface t Tensors get_type get_data_layout get_device_allocation
                       fp_compute bp_compute.

(** [setup_dims] *)
Definition setup_dims (this : t) : t :=
  let this := with_base (data_type_layer_setup_dims (base this)) this in
  let dims := get_input_dims (base this) in
  let dims := dims ++ [Cxx.static_cast_int (m_embedding_dim this)] in
  with_base (set_output_dims dims (base this)) this.

(** [setup_data], first block: "Construct default weights if needed". *)
Definition construct_default_weights (this : t) (σ : world) : outcome (t * world) :=
  if negb (has_weights (base this)) then
    let w := weights_ctor (get_comm (the_model σ)) TensorDataType in
    let init := normal_initializer El.TypeTraits_Zero El.TypeTraits_One in
    let opt := create_optimizer (the_model σ) in
    let w := set_name (get_name (base this) +:+ "_weights") w in
    let w := set_initializer (Some init) w in
    let w := set_optimizer opt w in
    let '(p, σ) := make_shared w σ in
    let this := with_base (add_weights p (base this)) this in
    let σ := mkWorld (model_add_weights p (the_model σ)) (weights_store σ) in
    Ok (this, σ)
  else Ok (this, σ).

(** [setup_data], the check that follows: exactly one weights object. *)
Definition check_num_weights (this : t) : outcome unit :=
  if bool_decide (num_weights (base this) ≠ 1%nat) then
    Throw (invalid_number_of_weights (get_type this) (get_name (base this))
                                     (num_weights (base this)))
  else Ok ().

(** [this->get_weights(0)] *)
Definition get_weights (this : t) (i : nat) : outcome loc :=
  or_undefined (m_weights (base this) !! i).

(** [setup_data], second block: "Initialize dictionary". *)
Definition initialize_dictionary (this : t) (σ : world) : outcome world :=
  p ← get_weights this 0;
  embeddings ← or_undefined (weights_store σ !! p);
  let matrix_dist := prev_activations_DistData (base this) in
  let matrix_dist := El.set_colDist El.STAR matrix_dist in
  let matrix_dist := El.set_rowDist El.STAR matrix_dist in
  let embeddings := set_dims [m_embedding_dim this] [m_num_embeddings this] embeddings in
  let embeddings := set_matrix_distribution matrix_dist embeddings in
  let embeddings := setup embeddings in
  Ok (mkWorld (the_model σ) (<[p := embeddings]> (weights_store σ))).

(** The condition under which the padding vector is zeroed. *)
Definition padding_guard (cfg : build_config) (this : t) : bool :=
  bool_decide (0 ≤ m_padding_idx this) &&
  bool_decide (m_padding_idx this < El.static_cast_Int cfg (m_embedding_dim this)).

Definition dynamic_cast (T : El.elem_type) (A : El.AbstractDistMatrix) : bool :=
  bool_decide (El.elem A = T).

(** The dispatch on the element type of the values, each branch taking
    a view of column [m_padding_idx] and zeroing it. *)
Definition zero_pad_embedding (cfg : build_config) (this : t)
    (embedding_values : El.AbstractDistMatrix) : outcome El.AbstractDistMatrix :=
  if dynamic_cast El.t_float embedding_values then
    or_undefined (El.Zero_column embedding_values (m_padding_idx this))
  else if dynamic_cast El.t_double embedding_values then
    or_undefined (El.Zero_column embedding_values (m_padding_idx this))
  else if LBANN_HAS_HALF cfg && dynamic_cast El.t_cpu_fp16 embedding_values then
    or_undefined (El.Zero_column embedding_values (m_padding_idx this))
  else if LBANN_HAS_GPU_FP16 cfg && dynamic_cast El.t_fp16 embedding_values then
    or_undefined (El.Zero_column embedding_values (m_padding_idx this))
  else Throw could_not_determine_type.

(** [setup_data], third block: "Zero out embedding vector for padding
    index", on the matrix of values. *)
Definition zero_out_padding (cfg : build_config) (this : t)
    (embedding_values : El.AbstractDistMatrix) : outcome El.AbstractDistMatrix :=
  if padding_guard cfg this then zero_pad_embedding cfg this embedding_values
  else Ok embedding_values.

(** [setup_data] *)
Definition setup_data (cfg : build_config) (max_mini_batch_size : Z)
    (this : t) (σ : world) : outcome (t * world) :=
  b ← data_type_layer_setup_data max_mini_batch_size (base this);
  let this := with_base b this in
  '(this, σ) ← construct_default_weights this σ;
  _ ← check_num_weights this;
  σ ← initialize_dictionary this σ;
  p ← get_weights this 0;
  embeddings ← or_undefined (weights_store σ !! p);
  embedding_values ← or_undefined (get_values_sharded embeddings);
  embedding_values ← zero_out_padding cfg this embedding_values;
  Ok (this, mkWorld (the_model σ)
                    (<[p := set_values embedding_values embeddings]> (weights_store σ))).

Context `{!external_description}.

(** [get_description] *)
Definition get_description (this : t) : description :=
  let desc := data_type_layer_get_description (base this) in
  let desc := description_add "Num embeddings" (value_size_t (m_num_embeddings this)) desc in
  let desc := description_add "Embedding dim" (value_size_t (m_embedding_dim this)) desc in
  let desc := description_add "Padding index" (value_Int (m_padding_idx this)) desc in
  desc.

End template.

End embedding_layer.

(** ** The cross entropy layer *)

Module cross_entropy_layer.

(** The class template.  [m_workspace] is a [std::unique_ptr]: the
    address of a matrix the layer owns, or null. *)
Record t (TensorDataType : El.elem_type) (T_layout : data_layout) (Dev : El.Device) := mk {
  base : Layer;
  m_use_labels : bool;
  m_workspace : option loc;
}.
Arguments mk {TensorDataType T_layout Dev}.
Arguments base {TensorDataType T_layout Dev}.
Arguments m_use_labels {TensorDataType T_layout Dev}.
Arguments m_workspace {TensorDataType T_layout Dev}.

Section template.

Context {TensorDataType : El.elem_type} {T_layout : data_layout} {Dev : El.Device}.
Context {Tensors : Type} `{!external_code Tensors}.

Local Abbreviation t := (t TensorDataType T_layout Dev).

Definition with_base (b : Layer) (l : t) : t :=
  mk b (m_use_labels l) (m_workspace l).

(** [cross_entropy_layer(lbann_comm *comm, bool use_labels)] *)
Definition ctor (comm : option lbann_comm) (use_labels : bool) : t :=
  let this : t := mk (data_type_layer_ctor comm) use_labels None in
  with_base (set_expected_num_parent_layers 2 (base this)) this.

(** [cross_entropy_layer()] *)
Definition default_ctor : t := ctor None false.

(** [other.m_workspace ? other.m_workspace->Copy() : nullptr] *)
Definition workspace_copy (other : t) (h : gmap loc El.AbstractDistMatrix)
    : outcome (option loc * gmap loc El.AbstractDistMatrix) :=
  match m_workspace other with
  | Some a =>
      A ← or_undefined (h !! a);
      let p := fresh (dom h) in
      Ok (Some p, <[p := El.Copy A]> h)
  | None => Ok (None, h)
  end.

(** [m_workspace.reset(p)]: the layer takes [p] and the matrix it owned
    before is destroyed. *)
Definition workspace_reset (p : option loc) (this : t) (h : gmap loc El.AbstractDistMatrix)
    : t * gmap loc El.AbstractDistMatrix :=
  let old := m_workspace this in
  let this : t := mk (base this) (m_use_labels this) p in
  (this, match old with Some a => delete a h | None => h end).

(** [cross_entropy_layer(const cross_entropy_layer& other)] *)
Definition copy_ctor (other : t) (h : gmap loc El.AbstractDistMatrix)
    : outcome (t * gmap loc El.AbstractDistMatrix) :=
  let this : t := mk (data_type_layer_copy (base other)) (m_use_labels other) None in
  '(p, h) ← workspace_copy other h;
  Ok (workspace_reset p this h).

(** [operator=] *)
Definition assign (this other : t) (h : gmap loc El.AbstractDistMatrix)
    : outcome (t * gmap loc El.AbstractDistMatrix) :=
  let this := with_base (data_type_layer_assign (base this) (base other)) this in
  let this : t := mk (base this) (m_use_labels other) (m_workspace this) in
  '(p, h) ← workspace_copy other h;
  Ok (workspace_reset p this h).

Definition copy (this : t) (h : gmap loc El.AbstractDistMatrix)
    : outcome (t * gmap loc El.AbstractDistMatrix) :=
  copy_ctor this h.

Definition get_type (this : t) : string := "cross entropy".
Definition get_data_layout (this : t) : data_layout := T_layout.
Definition get_device_allocation (this : t) : El.Device := Dev.

Definition fp_compute (this : t) : Tensors → outcome Tensors :=
  cross_entropy_fp_compute (m_use_labels this).
Definition bp_compute (this : t) : Tensors → outcome Tensors :=
  cross_entropy_bp_compute (m_use_labels this).

#[global] Instance layer_interface : LayerInterface t Tensors :=
  Build_LayerInterface t Tensors get_type get_data_layout get_device_allocation
                       fp_compute bp_compute.

(** The members below exist in builds with [LBANN_HAS_DISTCONV]. *)

Definition is_distconv_supported (this : t) : bool :=
  bool_decide (Dev = El.GPU) && bool_decide (T_layout = DATA_PARALLEL).

(** Modelled from the spec: the macro [assert_always(cond)], defined
    outside the two headers; it fails when [cond] is false. *)
Definition assert_always (what : string) (cond : bool) : outcome unit :=
  if cond then Ok () else Throw (assertion_failed what).

Definition fp_compute_distconv (this : t) (s : Tensors) : outcome Tensors :=
  _ ← assert_always "this->distconv_enabled()" (distconv_enabled (base this));
  distconv_forward s.

Definition bp_compute_distconv (this : t) (s : Tensors) : outcome Tensors :=
  _ ← assert_always "this->distconv_enabled()" (distconv_enabled (base this));
  distconv_backward s.

(** The layers a program can obtain: those built by one of the three
    constructors, and those assigned from such a layer. *)
Inductive constructed : t → Prop :=
  | constructed_ctor comm use_labels :
      constructed (ctor comm use_labels)
  | constructed_default :
      constructed default_ctor
  | constructed_copy other h this h' :
      constructed other → copy_ctor other h = Ok (this, h') → constructed this
  | constructed_assign this other h this' h' :
      constructed this → constructed other →
      assign this other h = Ok (this', h') → constructed this'.

End template.

End cross_entropy_layer.

(** ** A runtime to evaluate the definitions on

    A base class whose constructor yields an unnamed layer that expects
    one parent and whose setup steps change nothing, initializers that
    fill with ones, and kernels that leave the tensors alone. *)

Definition star_star : El.DistData :=
  El.mkDistData El.STAR El.STAR 1 1 0 0 0 0 0 0%nat El.CPU.

Definition mc_mr : El.DistData :=
  El.mkDistData El.MC El.MR 1 1 0 0 0 0 0 0%nat El.GPU.

#[global] Instance plain_runtime : external_code unit := {|
  data_type_layer_ctor comm := mkLayer EmptyString 1 [] [] [] mc_mr false;
  data_type_layer_setup_dims b := b;
  data_type_layer_setup_data _ b := Ok b;
  weights_ctor_dist := mc_mr;
  initializer_values _ _ _ := 1%float;
  cross_entropy_fp_compute _ s := Ok s;
  cross_entropy_bp_compute _ s := Ok s;
  embedding_fp_compute _ _ _ s := Ok s;
  embedding_bp_compute _ _ _ s := Ok s;
  distconv_forward s := Ok s;
  distconv_backward s := Ok s;
|}.

(** A build with 64-bit [El::Int] and without the half-precision types. *)
Definition build64 : build_config := BuildConfig true false false.

(** A layer as the model hands it to the setup functions: named, with
    the given input dimensions and weights. *)
Definition attached (name : string) (input_dims : list Z) (ws : list loc) (b : Layer) : Layer :=
  mkLayer name (m_expected_num_parent_layers b) ws
          input_dims (m_output_dims b) (prev_activations_DistData b) (m_distconv_enabled b).

Definition embedding_example (num_embeddings embedding_dim padding_idx : Z)
    (input_dims : list Z) : embedding_layer.t El.t_float DATA_PARALLEL El.CPU :=
  let l := embedding_layer.ctor num_embeddings embedding_dim padding_idx in
  embedding_layer.with_base (attached "emb" input_dims [] (embedding_layer.base l)) l.

(** ** Notions used to state the properties *)

(** The weights object that the block "Initialize dictionary" of
    [setup_data] makes of the weights object [W0] the layer holds. *)
Definition initialized {T L D} `{external_code Tensors}
    (this : embedding_layer.t T L D) (W0 : weights) : weights :=
  setup (set_matrix_distribution
           (El.set_rowDist El.STAR
              (El.set_colDist El.STAR (prev_activations_DistData (embedding_layer.base this))))
           (set_dims [embedding_layer.m_embedding_dim this]
                     [embedding_layer.m_num_embeddings this] W0)).

(** Column [j] of [A] exists and holds zeros only. *)
Definition column_zero (A : El.AbstractDistMatrix) (j : Z) : Prop :=
  0 ≤ j < El.Width A ∧ ∀ i, 0 ≤ i < El.Height A → El.Get A i j = El.TypeTraits_Zero.

(** The element types one of the branches of the dispatch in
    [setup_data] accepts. *)
Definition supported_elem_type (cfg : build_config) (T : El.elem_type) : bool :=
  bool_decide (T = El.t_float) || bool_decide (T = El.t_double)
  || (LBANN_HAS_HALF cfg && bool_decide (T = El.t_cpu_fp16))
  || (LBANN_HAS_GPU_FP16 cfg && bool_decide (T = El.t_fp16)).

(** A model with a default optimizer and no weights yet. *)
Definition empty_world : world :=
  mkWorld (mkModel (comm_handle 0) [] (Some (optimizer_object 0))) ∅.

(** A layer owns its workspace: the pointer is null or the address of a
    matrix in the store. *)
Definition owns_workspace {T L D} (h : gmap loc El.AbstractDistMatrix)
    (this : cross_entropy_layer.t T L D) : Prop :=
  ∀ a, cross_entropy_layer.m_workspace this = Some a → is_Some (h !! a).

(** The pointer [new] in the store [h'] is a copy of the pointer [orig]
    in the store [h]: both null, or [new] the address of a matrix that
    was not in [h] and has the contents [orig] has in [h]. *)
Definition workspace_is_copy (h h' : gmap loc El.AbstractDistMatrix)
    (orig new : option loc) : Prop :=
  match orig with
  | None => new = None
  | Some a => ∃ a' A, new = Some a' ∧ h !! a = Some A ∧ h' !! a' = Some A ∧ a' ∉ dom h
  end.

(** A cross entropy layer with a four by three workspace at address 5. *)
Definition workspace_example : El.AbstractDistMatrix :=
  El.mkMatrix El.t_float 4 3 star_star (λ _ _, 1%float).

Definition workspace_store : gmap loc El.AbstractDistMatrix := {[ 5%nat := workspace_example ]}.

Definition cross_entropy_example : cross_entropy_layer.t El.t_float DATA_PARALLEL El.GPU :=
  let l : cross_entropy_layer.t El.t_float DATA_PARALLEL El.GPU :=
    cross_entropy_layer.ctor None true in
  cross_entropy_layer.mk (cross_entropy_layer.base l) (cross_entropy_layer.m_use_labels l)
                         (Some 5%nat).

(** Weights a user has given to a layer, of element type [T], at
    address 3 of a store that holds nothing else; the model knows them. *)
Definition user_weights (T : El.elem_type) : weights :=
  mkWeights (comm_handle 0) T "user" (Some (other_initializer 1)) None [] [] mc_mr None.

Definition user_world (T : El.elem_type) : world :=
  mkWorld (mkModel (comm_handle 0) [3%nat] None) {[ 3%nat := user_weights T ]}.

(** An embedding layer that holds the weights pointers [ws]. *)
Definition embedding_with_weights (num_embeddings embedding_dim padding_idx : Z)
    (ws : list loc) : embedding_layer.t El.t_float DATA_PARALLEL El.CPU :=
  let l := embedding_layer.ctor num_embeddings embedding_dim padding_idx in
  embedding_layer.with_base (attached "emb" [7] ws (embedding_layer.base l)) l.

(** A base class that describes a layer by nothing. *)
#[global] Instance plain_description : external_description := {|
  data_type_layer_get_description _ := [];
|}.

(** * Properties *)

(** ** Integer conversions *)

Lemma to_signed_id (bits x : Z) :
  0 < bits → - 2 ^ (bits - 1) ≤ x < 2 ^ (bits - 1) → Cxx.to_signed bits x = x.
Proof.
  intros Hb Hx. unfold Cxx.to_signed.
  assert (H2 : 2 ^ bits = 2 * 2 ^ (bits - 1)).
  { replace bits with (Z.succ (bits - 1)) at 1 by lia. apply Z.pow_succ_r. lia. }
  rewrite Z.mod_small; lia.
Qed.

Lemma static_cast_int_id (x : Z) :
  0 ≤ x ≤ Cxx.INT_MAX → Cxx.static_cast_int x = x.
Proof.
  intros Hx. apply to_signed_id; [lia|]. unfold Cxx.INT_MAX in Hx. simpl; lia.
Qed.

Lemma static_cast_Int_id (cfg : build_config) (x : Z) :
  0 ≤ x ≤ El.Int_MAX cfg → El.static_cast_Int cfg x = x.
Proof.
  intros Hx. unfold El.static_cast_Int, El.Int_MAX in *.
  apply to_signed_id.
  - unfold El.Int_bits. destruct (EL_USE_64BIT_INTS cfg); lia.
  - assert (0 < 2 ^ (El.Int_bits cfg - 1)); [|lia].
    apply Z.pow_pos_nonneg; [lia|].
    unfold El.Int_bits. destruct (EL_USE_64BIT_INTS cfg); lia.
Qed.

(** ** The embedding layer: dimensions *)

Section embedding_setup_dims.

Context {TensorDataType : El.elem_type} {Layout : data_layout} {Device : El.Device}.
Context {Tensors : Type} `{!external_code Tensors}.
Implicit Types this : embedding_layer.t TensorDataType Layout Device.

Import embedding_layer.

(** C2, as the code has it.  [setup_dims] sets the output dimensions to
    the input dimensions (as they stand after the base class has set up
    its dimensions) followed by one more dimension,
    [static_cast<int>(embedding_dim)].  Whenever [embedding_dim] is at
    most [INT_MAX] that dimension is [embedding_dim] itself, and then a
    single input dimension [sequence_length] gives the output dimensions
    [sequence_length, embedding_dim]. *)
Theorem setup_dims_output_dims this :
  let input_dims := get_input_dims (data_type_layer_setup_dims (base this)) in
  let output_dims := get_output_dims (base (setup_dims this)) in
  output_dims = input_dims ++ [Cxx.static_cast_int (m_embedding_dim this)]
  ∧ (0 ≤ m_embedding_dim this ≤ Cxx.INT_MAX →
     output_dims = input_dims ++ [m_embedding_dim this]
     ∧ length output_dims = Datatypes.S (length input_dims)
     ∧ ∀ sequence_length, input_dims = [sequence_length] →
         output_dims = [sequence_length; m_embedding_dim this]).
Proof.
  intros input_dims output_dims.
  assert (Hout : output_dims = input_dims ++ [Cxx.static_cast_int (m_embedding_dim this)])
    by reflexivity.
  split; [exact Hout|].
  intros Hdim. rewrite Hout, (static_cast_int_id _ Hdim).
  repeat split.
  - rewrite length_app. simpl. lia.
  - intros sequence_length ->. reflexivity.
Qed.

End embedding_setup_dims.

Lemma setup_dims_output_dims_witness :
  let this := embedding_example 1000 128 (-1) [7] in
  get_output_dims (embedding_layer.base (embedding_layer.setup_dims this)) = [7; 128].
Proof.
  intros this.
  destruct (setup_dims_output_dims this) as [_ H].
  destruct H as (_ & _ & H); [vm_compute; split; discriminate|].
  apply (H 7). reflexivity.
Defined.

(** C2 as stated fails when [embedding_dim] does not fit an [int]: with
    [embedding_dim = 2^31] the dimension appended is [-2^31]. *)
Lemma setup_dims_appends_embedding_dim_counterexample :
  let this := embedding_example 1000 (2 ^ 31) (-1) [7] in
  get_output_dims (embedding_layer.base (embedding_layer.setup_dims this)) = [7; -2147483648]
  ∧ get_output_dims (embedding_layer.base (embedding_layer.setup_dims this))
    ≠ get_input_dims (embedding_layer.base this) ++ [embedding_layer.m_embedding_dim this].
Proof.
  split; [reflexivity|]. vm_compute. discriminate.
Qed.

(** ** The embedding layer: data setup *)

Lemma outcome_bind_Ok {A B} (m : outcome A) (f : A → outcome B) (b : B) :
  m ≫= f = Ok b → ∃ a, m = Ok a ∧ f a = Ok b.
Proof. destruct m; simpl; intros; try discriminate. eauto. Qed.

Lemma or_undefined_Ok {A} (o : option A) (a : A) :
  or_undefined o = Ok a → o = Some a.
Proof. destruct o; simpl; intros; congruence. Qed.

Lemma num_weights_single (b : Layer) :
  num_weights b = 1%nat → ∃ p, m_weights b = [p].
Proof.
  unfold num_weights. destruct (m_weights b) as [|p [|q l]]; simpl; try discriminate.
  eauto.
Qed.

Lemma Zero_column_Some (A A' : El.AbstractDistMatrix) (j : Z) :
  El.Zero_column A j = Some A' →
  0 ≤ j < El.Width A
  ∧ El.elem A' = El.elem A ∧ El.Height A' = El.Height A ∧ El.Width A' = El.Width A
  ∧ El.DistData_of A' = El.DistData_of A
  ∧ (∀ i, El.Get A' i j = El.TypeTraits_Zero)
  ∧ (∀ i c, c ≠ j → El.Get A' i c = El.Get A i c).
Proof.
  unfold El.Zero_column. case_bool_decide as Hj; [|discriminate].
  intros [= <-]. simpl. repeat split; try lia.
  - intros i. rewrite bool_decide_eq_true_2; done.
  - intros i c Hc. rewrite bool_decide_eq_false_2; done.
Qed.

Section embedding_setup_data.

Context {TensorDataType : El.elem_type} {Layout : data_layout} {Device : El.Device}.
Context {Tensors : Type} `{!external_code Tensors}.
Implicit Types this : embedding_layer.t TensorDataType Layout Device.
Implicit Types σ : world.

Import embedding_layer.

Lemma check_num_weights_Ok this u :
  check_num_weights this = Ok u → num_weights (base this) = 1%nat.
Proof.
  unfold check_num_weights. case_bool_decide as Hn; [discriminate|].
  intros _. destruct (decide (num_weights (base this) = 1%nat)); tauto.
Qed.

Lemma check_num_weights_Throw this :
  num_weights (base this) ≠ 1%nat →
  check_num_weights this
  = Throw (invalid_number_of_weights "embedding" (get_name (base this))
                                     (num_weights (base this))).
Proof. intros Hn. unfold check_num_weights. rewrite bool_decide_eq_true_2; done. Qed.

Lemma get_weights_single this p :
  m_weights (base this) = [p] → get_weights this 0 = Ok p.
Proof. unfold get_weights. intros ->. reflexivity. Qed.

(** The first block returns normally, and changes nothing of the layer
    but its weights pointers. *)
Lemma construct_default_weights_Ok this σ this1 σ1 :
  construct_default_weights this σ = Ok (this1, σ1) →
  m_num_embeddings this1 = m_num_embeddings this
  ∧ m_embedding_dim this1 = m_embedding_dim this
  ∧ m_padding_idx this1 = m_padding_idx this
  ∧ get_name (base this1) = get_name (base this)
  ∧ prev_activations_DistData (base this1) = prev_activations_DistData (base this).
Proof.
  unfold construct_default_weights.
  destruct (negb (has_weights (base this))); simpl; intros [= <- <-]; done.
Qed.

(** Zeroing the padding column keeps the shape of the matrix, and
    touches no other column. *)
Lemma zero_pad_embedding_Ok cfg this A A' :
  zero_pad_embedding cfg this A = Ok A' →
  El.Zero_column A (m_padding_idx this) = Some A'
  ∧ supported_elem_type cfg (El.elem A) = true.
Proof.
  unfold zero_pad_embedding, supported_elem_type, dynamic_cast.
  repeat case_bool_decide; destruct (LBANN_HAS_HALF cfg), (LBANN_HAS_GPU_FP16 cfg);
    simpl; intros HA; try discriminate; apply or_undefined_Ok in HA; done.
Qed.

Lemma zero_pad_embedding_supported cfg this A :
  supported_elem_type cfg (El.elem A) = true →
  zero_pad_embedding cfg this A = or_undefined (El.Zero_column A (m_padding_idx this)).
Proof.
  unfold zero_pad_embedding, supported_elem_type, dynamic_cast.
  repeat case_bool_decide; destruct (LBANN_HAS_HALF cfg), (LBANN_HAS_GPU_FP16 cfg);
    simpl; intros HA; try discriminate; done.
Qed.

Lemma zero_pad_embedding_unsupported cfg this A :
  supported_elem_type cfg (El.elem A) = false →
  zero_pad_embedding cfg this A = Throw could_not_determine_type.
Proof.
  unfold zero_pad_embedding, supported_elem_type, dynamic_cast.
  repeat case_bool_decide; destruct (LBANN_HAS_HALF cfg), (LBANN_HAS_GPU_FP16 cfg);
    simpl; intros HA; try discriminate; done.
Qed.

Lemma zero_out_padding_shape cfg this A A' :
  zero_out_padding cfg this A = Ok A' →
  El.elem A' = El.elem A ∧ El.Height A' = El.Height A ∧ El.Width A' = El.Width A
  ∧ El.DistData_of A' = El.DistData_of A.
Proof.
  unfold zero_out_padding. destruct (padding_guard cfg this).
  - intros HA. apply zero_pad_embedding_Ok in HA as [HA _].
    apply Zero_column_Some in HA. tauto.
  - intros [= <-]. done.
Qed.

(** What a normal return of [setup_data] tells: the base class returned
    normally, the layer then held exactly one weights object [W0], and
    the store holds in its place the initialized weights with the
    padding step applied to their values. *)
Lemma setup_data_Ok cfg mb this σ this' σ' :
  setup_data cfg mb this σ = Ok (this', σ') →
  ∃ b σ1 p W0 A0 A',
    data_type_layer_setup_data mb (base this) = Ok b
    ∧ construct_default_weights (with_base b this) σ = Ok (this', σ1)
    ∧ m_weights (base this') = [p]
    ∧ weights_store σ1 !! p = Some W0
    ∧ w_values (initialized this' W0) = Some A0
    ∧ zero_out_padding cfg this' A0 = Ok A'
    ∧ σ' = mkWorld (the_model σ1)
             (<[p := set_values A' (initialized this' W0)]>
                (<[p := initialized this' W0]> (weights_store σ1))).
Proof.
  unfold setup_data. intros H.
  apply outcome_bind_Ok in H as (b & Hb & H).
  apply outcome_bind_Ok in H as ([this1 σ1] & Hc & H).
  apply outcome_bind_Ok in H as (u & Hn & H).
  apply outcome_bind_Ok in H as (σ2 & Hi & H).
  apply outcome_bind_Ok in H as (p & Hp & H).
  apply outcome_bind_Ok in H as (W & HW & H).
  apply outcome_bind_Ok in H as (A0 & HA0 & H).
  apply outcome_bind_Ok in H as (A' & HA' & H).
  injection H as <- <-.
  apply check_num_weights_Ok, num_weights_single in Hn as [q Hq].
  rewrite (get_weights_single _ _ Hq) in Hp. injection Hp as <-.
  unfold initialize_dictionary in Hi.
  rewrite (get_weights_single _ _ Hq) in Hi. simpl in Hi.
  apply outcome_bind_Ok in Hi as (W0 & HW0 & Hi).
  apply or_undefined_Ok in HW0. injection Hi as <-.
  simpl in HW. rewrite lookup_insert_eq in HW. simpl in HW. injection HW as <-.
  apply or_undefined_Ok in HA0.
  exists b, σ1, q, W0, A0, A'. repeat split; done.
Qed.

(** The weights object a normal return of [setup_data] leaves behind. *)
Lemma setup_data_weights cfg mb this σ this' σ' :
  setup_data cfg mb this σ = Ok (this', σ') →
  ∃ b p W0 A0 A',
    data_type_layer_setup_data mb (base this) = Ok b
    ∧ m_weights (base this') = [p]
    ∧ weights_store σ' !! p = Some (set_values A' (initialized this' W0))
    ∧ w_values (initialized this' W0) = Some A0
    ∧ zero_out_padding cfg this' A0 = Ok A'
    ∧ m_num_embeddings this' = m_num_embeddings this
    ∧ m_embedding_dim this' = m_embedding_dim this
    ∧ m_padding_idx this' = m_padding_idx this
    ∧ prev_activations_DistData (base this') = prev_activations_DistData b.
Proof.
  intros H. apply setup_data_Ok in H
    as (b & σ1 & p & W0 & A0 & A' & Hb & Hc & Hp & HW0 & HA0 & HA' & ->).
  apply construct_default_weights_Ok in Hc as (Hn & Hd & Hi & _ & Hdist).
  exists b, p, W0, A0, A'. simpl. rewrite lookup_insert_eq. repeat split; done.
Qed.

Lemma padding_guard_true cfg this :
  padding_guard cfg this = true
  ↔ 0 ≤ m_padding_idx this < El.static_cast_Int cfg (m_embedding_dim this).
Proof.
  unfold padding_guard. rewrite andb_true_iff, !bool_decide_eq_true. tauto.
Qed.

(** Where [embedding_dim] fits [El::Int], the guard compares the padding
    index with the embedding dimension. *)
Lemma padding_guard_embedding_dim cfg this :
  0 ≤ m_embedding_dim this ≤ El.Int_MAX cfg →
  padding_guard cfg this = true ↔ 0 ≤ m_padding_idx this < m_embedding_dim this.
Proof.
  intros Hd. rewrite padding_guard_true, (static_cast_Int_id _ _ Hd). tauto.
Qed.

Lemma Zero_column_column_zero (A A' : El.AbstractDistMatrix) (j : Z) :
  El.Zero_column A j = Some A' → column_zero A' j.
Proof.
  intros HA. apply Zero_column_Some in HA as (Hj & _ & _ & Hw & _ & Hz & _).
  split; [rewrite Hw; exact Hj|]. intros i _. apply Hz.
Qed.

(** The zeroing step on a matrix of values. *)
Lemma zero_out_padding_spec cfg this A :
  (padding_guard cfg this = false → zero_out_padding cfg this A = Ok A)
  ∧ (padding_guard cfg this = true →
     supported_elem_type cfg (El.elem A) = true →
     m_padding_idx this < El.Width A →
     ∃ A', zero_out_padding cfg this A = Ok A'
           ∧ El.Zero_column A (m_padding_idx this) = Some A'
           ∧ column_zero A' (m_padding_idx this))
  ∧ (padding_guard cfg this = true →
     supported_elem_type cfg (El.elem A) = false →
     zero_out_padding cfg this A = Throw could_not_determine_type)
  ∧ (∀ A', zero_out_padding cfg this A = Ok A' →
     ∀ i j, j ≠ m_padding_idx this → El.Get A' i j = El.Get A i j).
Proof.
  unfold zero_out_padding. repeat split.
  - intros ->. reflexivity.
  - intros Hg Hs Hw. rewrite Hg, (zero_pad_embedding_supported _ _ _ Hs).
    apply padding_guard_true in Hg as [Hp _].
    destruct (El.Zero_column A (m_padding_idx this)) as [A'|] eqn:HA.
    + exists A'. split; [reflexivity|]. split; [reflexivity|].
      apply (Zero_column_column_zero A), HA.
    + unfold El.Zero_column in HA. rewrite bool_decide_eq_true_2 in HA; [discriminate|lia].
  - intros -> Hs. apply zero_pad_embedding_unsupported, Hs.
  - intros A'. destruct (padding_guard cfg this).
    + intros HA i j Hj. apply zero_pad_embedding_Ok in HA as [HA _].
      apply Zero_column_Some in HA as (_ & _ & _ & _ & _ & _ & Hk). apply Hk, Hj.
    + intros [= <-]. done.
Qed.

(** [setup_data] returns normally when the base class does, the layer
    then holds one weights object that is in the store, and the padding
    step has nothing to do or can do it. *)
Lemma setup_data_returns cfg mb this σ b this1 σ1 p W0 :
  data_type_layer_setup_data mb (base this) = Ok b →
  construct_default_weights (with_base b this) σ = Ok (this1, σ1) →
  m_weights (base this1) = [p] →
  weights_store σ1 !! p = Some W0 →
  padding_guard cfg this = false
  ∨ (supported_elem_type cfg (w_elem W0) = true
     ∧ m_padding_idx this < m_num_embeddings this) →
  returns_normally (setup_data cfg mb this σ).
Proof.
  intros Hb Hc Hp HW0 Hpad. unfold setup_data.
  rewrite Hb. simpl. rewrite Hc. simpl.
  unfold check_num_weights, num_weights. rewrite Hp. simpl.
  unfold initialize_dictionary. rewrite (get_weights_single _ _ Hp). simpl.
  rewrite HW0. simpl. rewrite lookup_insert_eq. simpl.
  apply construct_default_weights_Ok in Hc as (Hn & Hd & Hi & _).
  simpl in Hn, Hd, Hi.
  match goal with |- context [zero_out_padding cfg this1 ?A] => set (A0 := A) end.
  assert (Hg : padding_guard cfg this1 = padding_guard cfg this).
  { unfold padding_guard. rewrite Hd, Hi. reflexivity. }
  destruct (zero_out_padding_spec cfg this1 A0) as (Hfalse & Htrue & _).
  destruct (padding_guard cfg this) eqn:Hguard.
  - destruct Hpad as [?|[Hs Hlt]]; [discriminate|].
    destruct (Htrue Hg) as (A' & -> & _).
    + exact Hs.
    + subst A0. simpl. unfold get_matrix_width. simpl. rewrite Hi, Hn. lia.
    + eexists. reflexivity.
  - rewrite (Hfalse Hg). eexists. reflexivity.
Qed.

(** The padding step throws nothing but the error of the dispatch. *)
Lemma zero_out_padding_Throw cfg this A e :
  zero_out_padding cfg this A = Throw e → e = could_not_determine_type.
Proof.
  unfold zero_out_padding. destruct (padding_guard cfg this); [|discriminate].
  destruct (supported_elem_type cfg (El.elem A)) eqn:Hs.
  - rewrite (zero_pad_embedding_supported _ _ _ Hs).
    destruct (El.Zero_column A (m_padding_idx this)); discriminate.
  - rewrite (zero_pad_embedding_unsupported _ _ _ Hs). congruence.
Qed.

(** The first block on a layer without weights: the layer then holds
    one weights object of its own element type, at an address that was
    not in use. *)
Lemma construct_default_weights_fresh this σ :
  has_weights (base this) = false →
  ∃ p W this1 σ1,
    construct_default_weights this σ = Ok (this1, σ1)
    ∧ m_weights (base this1) = [p]
    ∧ weights_store σ1 !! p = Some W
    ∧ w_elem W = TensorDataType.
Proof.
  intros Hw. unfold construct_default_weights. rewrite Hw. simpl.
  eexists _, _, _, _. split; [reflexivity|]. simpl.
  unfold has_weights, num_weights in Hw. apply bool_decide_eq_false in Hw.
  destruct (m_weights (base this)) as [|q l]; [|exfalso; apply Hw; simpl; lia].
  rewrite lookup_insert_eq. done.
Qed.

(** [setup_data] returns normally on a layer that comes without weights
    out of the base class, when the padding step has nothing to do or
    can do it. *)
Lemma setup_data_returns_default cfg mb this σ b :
  data_type_layer_setup_data mb (base this) = Ok b →
  has_weights b = false →
  padding_guard cfg this = false
  ∨ (supported_elem_type cfg TensorDataType = true
     ∧ m_padding_idx this < m_num_embeddings this) →
  returns_normally (setup_data cfg mb this σ).
Proof.
  intros Hb Hw Hpad.
  destruct (construct_default_weights_fresh (with_base b this) σ Hw)
    as (p & W & this1 & σ1 & Hc & Hp & HW & He).
  eapply setup_data_returns; eauto. rewrite He. exact Hpad.
Qed.

(** With one weights object in the layer, [setup_data] does not throw
    the error of the weights check. *)
Lemma setup_data_no_weights_error cfg mb this σ b this1 σ1 ty nm n :
  data_type_layer_setup_data mb (base this) = Ok b →
  construct_default_weights (with_base b this) σ = Ok (this1, σ1) →
  num_weights (base this1) = 1%nat →
  setup_data cfg mb this σ ≠ Throw (invalid_number_of_weights ty nm n).
Proof.
  intros Hb Hc Hn. apply num_weights_single in Hn as [p Hp].
  unfold setup_data. rewrite Hb. simpl. rewrite Hc. simpl.
  unfold check_num_weights, num_weights. rewrite Hp. simpl.
  unfold initialize_dictionary. rewrite (get_weights_single _ _ Hp). simpl.
  destruct (weights_store σ1 !! p) as [W0|]; simpl; [|discriminate].
  rewrite lookup_insert_eq. simpl.
  match goal with |- context [zero_out_padding cfg this1 ?A] =>
    destruct (zero_out_padding cfg this1 A) as [A'|e|] eqn:HA end; simpl;
    try discriminate.
  apply zero_out_padding_Throw in HA as ->. discriminate.
Qed.

(** C3.  When [setup_data] returns, the one weights object of the layer
    has the height dimensions [embedding_dim] and the width dimensions
    [num_embeddings]: its matrix, the table of embedding vectors, has
    [embedding_dim] rows and [num_embeddings] columns, one column of
    length [embedding_dim] for each index.  And [setup_data] does
    return, for one, on a layer without weights of its own when the base
    class returns and the padding step has nothing to do or can do it. *)
Theorem setup_data_weights_dims cfg mb this σ :
  (∀ this' σ',
     setup_data cfg mb this σ = Ok (this', σ') →
     ∃ p W A,
       m_weights (base this') = [p]
       ∧ weights_store σ' !! p = Some W
       ∧ w_matrix_height_dims W = [m_embedding_dim this]
       ∧ w_matrix_width_dims W = [m_num_embeddings this]
       ∧ get_matrix_height W = m_embedding_dim this
       ∧ get_matrix_width W = m_num_embeddings this
       ∧ get_values_sharded W = Some A
       ∧ El.Height A = m_embedding_dim this
       ∧ El.Width A = m_num_embeddings this)
  ∧ (∀ b,
       data_type_layer_setup_data mb (base this) = Ok b →
       has_weights b = false →
       padding_guard cfg this = false
       ∨ (supported_elem_type cfg TensorDataType = true
          ∧ m_padding_idx this < m_num_embeddings this) →
       returns_normally (setup_data cfg mb this σ)).
Proof.
  split; [|intros b; apply setup_data_returns_default].
  intros this' σ' H.
  apply setup_data_weights in H
    as (b & p & W0 & A0 & A' & _ & Hp & HW & HA0 & HA' & Hn & Hd & _).
  apply zero_out_padding_shape in HA' as (_ & Hh & Hw & _).
  injection HA0 as <-. simpl in Hh, Hw.
  eexists p, _, A'. split; [exact Hp|]. split; [exact HW|].
  unfold get_matrix_height, get_matrix_width. simpl.
  rewrite <- Hn, <- Hd. repeat split; try lia.
  - rewrite Hh. unfold get_matrix_height. simpl. lia.
  - rewrite Hw. unfold get_matrix_width. simpl. lia.
Qed.

(** C7.  When [setup_data] returns, the distribution of the weights
    matrix is the one of the previous activations (as they are after the
    base class has set up its data) with both the column and the row
    distribution replaced by [STAR], whatever they were. *)
Theorem setup_data_weights_distribution cfg mb this σ this' σ' :
  setup_data cfg mb this σ = Ok (this', σ') →
  ∃ b p W A,
    data_type_layer_setup_data mb (base this) = Ok b
    ∧ m_weights (base this') = [p]
    ∧ weights_store σ' !! p = Some W
    ∧ El.colDist (w_matrix_dist W) = El.STAR
    ∧ El.rowDist (w_matrix_dist W) = El.STAR
    ∧ w_matrix_dist W
      = El.set_rowDist El.STAR (El.set_colDist El.STAR (prev_activations_DistData b))
    ∧ get_values_sharded W = Some A
    ∧ El.DistData_of A = w_matrix_dist W.
Proof.
  intros H.
  apply setup_data_weights in H
    as (b & p & W0 & A0 & A' & Hb & Hp & HW & HA0 & HA' & _ & _ & _ & Hdist).
  apply zero_out_padding_shape in HA' as (_ & _ & _ & Hdd).
  injection HA0 as <-. simpl in Hdd.
  eexists b, p, _, A'. split; [exact Hb|]. split; [exact Hp|]. split; [exact HW|].
  simpl. rewrite Hdist in *. repeat split; done.
Qed.

(** C5, as the code has it.  [setup_data] and the weights of the layer.
    A layer without
    weights gets a new weights object, at an address not in use, with
    the normal initializer of mean zero and standard deviation one, the
    optimizer the model creates and the name of the layer followed by
    [_weights]; the object is entered in the weights of the layer and in
    those of the model.  A layer with weights is left as it is.  The
    check that follows throws exactly when the layer does not hold one
    weights object, and [setup_data] throws the error of that check
    exactly then; so when [setup_data] returns the layer holds exactly
    one weights object, which is in the store. *)
Theorem setup_data_weight_ownership cfg mb this σ :
  (has_weights (base this) = false →
   ∃ p W,
     (p ∉ dom (weights_store σ))
     ∧ construct_default_weights this σ
       = Ok (with_base (add_weights p (base this)) this,
             mkWorld (model_add_weights p (the_model σ)) (<[p := W]> (weights_store σ)))
     ∧ m_weights (add_weights p (base this)) = [p]
     ∧ model_weights (model_add_weights p (the_model σ))
       = (model_weights (the_model σ) ++ [p])
     ∧ w_name W = get_name (base this) +:+ "_weights"
     ∧ w_initializer W = Some (normal_initializer El.TypeTraits_Zero El.TypeTraits_One)
     ∧ w_optimizer W = create_optimizer (the_model σ)
     ∧ w_elem W = TensorDataType
     ∧ w_comm W = get_comm (the_model σ))
  ∧ (has_weights (base this) = true → construct_default_weights this σ = Ok (this, σ))
  ∧ (∀ this1 : embedding_layer.t TensorDataType Layout Device,
       throws (check_num_weights this1) ↔ num_weights (base this1) ≠ 1%nat)
  ∧ (∀ b this1 σ1,
       data_type_layer_setup_data mb (base this) = Ok b →
       construct_default_weights (with_base b this) σ = Ok (this1, σ1) →
       ((∃ ty nm n, setup_data cfg mb this σ = Throw (invalid_number_of_weights ty nm n))
        ↔ num_weights (base this1) ≠ 1%nat)
       ∧ (num_weights (base this1) ≠ 1%nat →
          setup_data cfg mb this σ
          = Throw (invalid_number_of_weights "embedding" (get_name (base this1))
                                             (num_weights (base this1)))))
  ∧ (∀ this' σ',
       setup_data cfg mb this σ = Ok (this', σ') →
       num_weights (base this') = 1%nat
       ∧ ∃ p, m_weights (base this') = [p] ∧ is_Some (weights_store σ' !! p)).
Proof.
  split; [|split; [|split; [|split]]].
  - intros Hw. unfold construct_default_weights. rewrite Hw. simpl.
    eexists _, _. split; [apply is_fresh|]. split; [reflexivity|].
    unfold has_weights, num_weights in Hw.
    apply bool_decide_eq_false in Hw.
    destruct (m_weights (base this)) as [|q l] eqn:Hl; [|exfalso; apply Hw; simpl; lia].
    simpl. rewrite ?Hl. repeat split; done.
  - intros Hw. unfold construct_default_weights. rewrite Hw. reflexivity.
  - intros this1. split.
    + intros [e He] Hn. unfold check_num_weights in He.
      rewrite bool_decide_eq_false_2 in He; [discriminate|]. intros Hne. done.
    + intros Hn. eexists. apply check_num_weights_Throw, Hn.
  - intros b this1 σ1 Hb Hc.
    assert (Hthrow : num_weights (base this1) ≠ 1%nat →
              setup_data cfg mb this σ
              = Throw (invalid_number_of_weights "embedding" (get_name (base this1))
                                                 (num_weights (base this1)))).
    { intros Hn. unfold setup_data. rewrite Hb. simpl. rewrite Hc. simpl.
      rewrite (check_num_weights_Throw _ Hn). reflexivity. }
    split; [split|exact Hthrow].
    + intros (ty & nm & n & He) Hn.
      exact (setup_data_no_weights_error _ _ _ _ _ _ _ _ _ _ Hb Hc Hn He).
    + intros Hn. eexists _, _, _. apply Hthrow, Hn.
  - intros this' σ' H.
    apply setup_data_weights in H as (b & p & W0 & A0 & A' & _ & Hp & HW & _).
    split; [unfold num_weights; rewrite Hp; reflexivity|].
    exists p. split; [exact Hp|]. rewrite HW. eauto.
Qed.

End embedding_setup_data.

Lemma setup_data_weights_dims_witness :
  ∃ this' σ',
    embedding_layer.setup_data build64 32 (embedding_example 1000 128 (-1) [7]) empty_world
    = Ok (this', σ')
    ∧ ∃ p W A,
        m_weights (embedding_layer.base this') = [p]
        ∧ weights_store σ' !! p = Some W
        ∧ get_matrix_height W = 128 ∧ get_matrix_width W = 1000
        ∧ get_values_sharded W = Some A ∧ El.Height A = 128 ∧ El.Width A = 1000.
Proof.
  destruct (setup_data_weights_dims build64 32 (embedding_example 1000 128 (-1) [7])
              empty_world) as [Hdims Hret].
  destruct (Hret (embedding_layer.base (embedding_example 1000 128 (-1) [7]))
              eq_refl eq_refl (or_introl eq_refl)) as [[this' σ'] E].
  exists this', σ'. split; [exact E|].
  destruct (Hdims _ _ E) as (p & W & A & Hp & HW & _ & _ & Hh & Hw & HA & HAh & HAw).
  exists p, W, A. repeat split; assumption.
Defined.

Lemma setup_data_weights_distribution_witness :
  ∃ this' σ',
    embedding_layer.setup_data build64 32 (embedding_example 1000 128 (-1) [7]) empty_world
    = Ok (this', σ')
    ∧ ∃ p W,
        m_weights (embedding_layer.base this') = [p]
        ∧ weights_store σ' !! p = Some W
        ∧ El.colDist (w_matrix_dist W) = El.STAR
        ∧ El.rowDist (w_matrix_dist W) = El.STAR
        ∧ w_matrix_dist W = El.set_rowDist El.STAR (El.set_colDist El.STAR mc_mr).
Proof.
  assert (E : ∃ r, embedding_layer.setup_data build64 32
                     (embedding_example 1000 128 (-1) [7]) empty_world = Ok r)
    by (eexists; vm_compute; reflexivity).
  destruct E as [[this' σ'] E]. exists this', σ'. split; [exact E|].
  destruct (setup_data_weights_distribution _ _ _ _ _ _ E)
    as (b & p & W & A & Hb & Hp & HW & Hc & Hr & Hd & _).
  injection Hb as <-.
  exists p, W. repeat split; assumption.
Defined.

Lemma setup_data_weight_ownership_witness :
  (∃ p W, embedding_layer.construct_default_weights
            (embedding_example 1000 128 (-1) [7]) empty_world
          = Ok (embedding_layer.with_base
                  (add_weights p (embedding_layer.base (embedding_example 1000 128 (-1) [7])))
                  (embedding_example 1000 128 (-1) [7]),
                mkWorld (model_add_weights p (the_model empty_world))
                        (<[p := W]> (weights_store empty_world)))
          ∧ w_name W = "emb_weights")
  ∧ ∃ this' σ',
      embedding_layer.setup_data build64 32 (embedding_example 1000 128 (-1) [7]) empty_world
      = Ok (this', σ')
      ∧ num_weights (embedding_layer.base this') = 1%nat.
Proof.
  destruct (setup_data_weight_ownership build64 32 (embedding_example 1000 128 (-1) [7])
              empty_world) as (Hnew & _ & _ & _ & Hret).
  split.
  - destruct (Hnew eq_refl) as (p & W & _ & Hc & _ & _ & Hname & _).
    exists p, W. split; [exact Hc | exact Hname].
  - assert (E : ∃ r, embedding_layer.setup_data build64 32
                       (embedding_example 1000 128 (-1) [7]) empty_world = Ok r)
      by (eexists; vm_compute; reflexivity).
    destruct E as [[this' σ'] E]. exists this', σ'. split; [exact E|].
    exact (proj1 (Hret _ _ E)).
Defined.

Lemma float_one_not_zero : 1%float ≠ El.TypeTraits_Zero.
Proof.
  intros H. apply (f_equal (PrimFloat.eqb 1%float)) in H.
  vm_compute in H. discriminate.
Qed.

(** C4, at the inputs where the code goes wrong.  The guard of the
    padding step bounds [padding_idx], the index of a column, by
    [embedding_dim], the number of rows, where the matrix has
    [num_embeddings] columns.  With two embeddings of dimension four and
    padding index three the guard holds and the view is taken of column
    3 of a matrix that has the columns 0 and 1 only: [setup_data] has no
    defined behaviour and no column 3 is zeroed.  With four embeddings
    of dimension two and padding index three the guard fails although
    column 3 exists: [setup_data] returns and the padding vector holds
    what the initializer wrote, not zeros. *)
Theorem setup_data_padding_idx_bound :
  (let this := embedding_example 2 4 3 [7] in
   0 ≤ embedding_layer.m_padding_idx this < embedding_layer.m_embedding_dim this
   ∧ embedding_layer.padding_guard build64 this = true
   ∧ embedding_layer.setup_data build64 32 this empty_world = Undefined
   ∧ ∀ A, El.Width A = embedding_layer.m_num_embeddings this →
          ¬ column_zero A (embedding_layer.m_padding_idx this))
  ∧ (let this := embedding_example 4 2 3 [7] in
     0 ≤ embedding_layer.m_padding_idx this < embedding_layer.m_num_embeddings this
     ∧ embedding_layer.padding_guard build64 this = false
     ∧ ∃ this' σ' p W A,
         embedding_layer.setup_data build64 32 this empty_world = Ok (this', σ')
         ∧ m_weights (embedding_layer.base this') = [p]
         ∧ weights_store σ' !! p = Some W
         ∧ get_values_sharded W = Some A
         ∧ El.Height A = 2 ∧ El.Width A = 4
         ∧ El.Get A 0 3 = 1%float
         ∧ ¬ column_zero A 3).
Proof.
  split.
  - split; [|split; [|split]].
    + vm_compute. split; [discriminate|reflexivity].
    + reflexivity.
    + vm_compute. reflexivity.
    + intros A HA [Hcol _]. rewrite HA in Hcol. vm_compute in Hcol.
      destruct Hcol as [_ Hcol]. discriminate.
  - split; [|split].
    + vm_compute. split; [discriminate|reflexivity].
    + reflexivity.
    + eexists _, _, _, _, _.
      split; [vm_compute; reflexivity|].
      split; [vm_compute; reflexivity|].
      split; [vm_compute; reflexivity|].
      split; [vm_compute; reflexivity|].
      split; [reflexivity|]. split; [reflexivity|]. split; [reflexivity|].
      intros [_ Hzero]. apply float_one_not_zero.
      apply (Hzero 0). vm_compute. split; [discriminate|reflexivity].
Qed.

(** C5 as stated fails: [setup_data] also throws with exactly one
    weights object in the layer, when the padding guard holds and the
    element type of the weights is none the dispatch knows; the error is
    then the one of the dispatch, not the one of the weights check. *)
Lemma setup_data_error_with_one_weights_counterexample :
  let this := embedding_with_weights 1000 128 0 [3%nat] in
  num_weights (embedding_layer.base this) = 1%nat
  ∧ embedding_layer.construct_default_weights this (user_world (El.t_other 0))
    = Ok (this, user_world (El.t_other 0))
  ∧ embedding_layer.setup_data build64 32 this (user_world (El.t_other 0))
    = Throw could_not_determine_type.
Proof.
  split; [reflexivity|]. split; [reflexivity|]. vm_compute. reflexivity.
Qed.

(** ** Copies of layers *)

Section copies.

Context {TensorDataType : El.elem_type} {Layout : data_layout} {Device : El.Device}.

Lemma workspace_copy_spec (other : cross_entropy_layer.t TensorDataType Layout Device)
    (h : gmap loc El.AbstractDistMatrix) :
  owns_workspace h other →
  ∃ p h', cross_entropy_layer.workspace_copy other h = Ok (p, h')
          ∧ workspace_is_copy h h' (cross_entropy_layer.m_workspace other) p
          ∧ (∀ a, p ≠ Some a → h' !! a = h !! a)
          ∧ (∀ a, p = Some a → a ∉ dom h).
Proof.
  intros Hown. unfold cross_entropy_layer.workspace_copy, workspace_is_copy.
  destruct (cross_entropy_layer.m_workspace other) as [a|] eqn:Hw.
  - destruct (Hown a Hw) as [A HA]. rewrite HA. simpl.
    eexists _, _. split; [reflexivity|]. split; [|split].
    + exists (fresh (dom h)), A. rewrite lookup_insert_eq.
      repeat split; try done. apply is_fresh.
    + intros b Hb. apply lookup_insert_ne. congruence.
    + intros b [= <-]. apply is_fresh.
  - exists None, h. repeat split; done.
Qed.

(** C8.  A copy of an embedding layer, made by [copy] or by
    [operator=], has the [num_embeddings], [embedding_dim] and
    [padding_idx] of the original.  A copy of a cross entropy layer has
    the [use_labels] flag of the original; its workspace is null when
    the original has none, and otherwise a new matrix with the contents
    of the workspace of the original. *)
Theorem copies_preserve_configuration :
  (∀ this : embedding_layer.t TensorDataType Layout Device,
     let c := embedding_layer.copy this in
     embedding_layer.m_num_embeddings c = embedding_layer.m_num_embeddings this
     ∧ embedding_layer.m_embedding_dim c = embedding_layer.m_embedding_dim this
     ∧ embedding_layer.m_padding_idx c = embedding_layer.m_padding_idx this)
  ∧ (∀ this other : embedding_layer.t TensorDataType Layout Device,
     let c := embedding_layer.assign this other in
     embedding_layer.m_num_embeddings c = embedding_layer.m_num_embeddings other
     ∧ embedding_layer.m_embedding_dim c = embedding_layer.m_embedding_dim other
     ∧ embedding_layer.m_padding_idx c = embedding_layer.m_padding_idx other)
  ∧ (∀ (this : cross_entropy_layer.t TensorDataType Layout Device) h,
     owns_workspace h this →
     ∃ c h',
       cross_entropy_layer.copy this h = Ok (c, h')
       ∧ cross_entropy_layer.m_use_labels c = cross_entropy_layer.m_use_labels this
       ∧ workspace_is_copy h h' (cross_entropy_layer.m_workspace this)
                           (cross_entropy_layer.m_workspace c))
  ∧ (∀ (this other : cross_entropy_layer.t TensorDataType Layout Device) h,
     owns_workspace h this → owns_workspace h other →
     ∃ c h',
       cross_entropy_layer.assign this other h = Ok (c, h')
       ∧ cross_entropy_layer.m_use_labels c = cross_entropy_layer.m_use_labels other
       ∧ workspace_is_copy h h' (cross_entropy_layer.m_workspace other)
                           (cross_entropy_layer.m_workspace c)).
Proof.
  split; [|split; [|split]].
  - intros this. simpl. done.
  - intros this other. simpl. done.
  - intros this h Hown.
    destruct (workspace_copy_spec this h Hown) as (p & h' & Hc & Hcopy & _).
    unfold cross_entropy_layer.copy, cross_entropy_layer.copy_ctor.
    rewrite Hc. simpl. eexists _, _. split; [reflexivity|]. simpl. split; done.
  - intros this other h Hthis Hother.
    destruct (workspace_copy_spec other h Hother) as (p & h' & Hc & Hcopy & Hsame & Hfresh).
    unfold cross_entropy_layer.assign. simpl.
    rewrite Hc. simpl. eexists _, _. split; [reflexivity|]. simpl. split; [done|].
    unfold workspace_is_copy in *.
    destruct (cross_entropy_layer.m_workspace other) as [a|]; [|exact Hcopy].
    destruct Hcopy as (a' & A & -> & HA & HA' & Hnew).
    exists a', A. repeat split; try done.
    destruct (cross_entropy_layer.m_workspace this) as [old|] eqn:Hold; [|exact HA'].
    rewrite lookup_delete_ne; [exact HA'|].
    intros <-. apply Hnew, elem_of_dom, Hthis, Hold.
Qed.

End copies.

Lemma copies_preserve_configuration_witness :
  ∃ c h',
    cross_entropy_layer.copy cross_entropy_example workspace_store = Ok (c, h')
    ∧ cross_entropy_layer.m_use_labels c = true
    ∧ ∃ a', cross_entropy_layer.m_workspace c = Some a'
            ∧ a' ≠ 5%nat
            ∧ h' !! a' = Some workspace_example.
Proof.
  destruct (@copies_preserve_configuration El.t_float DATA_PARALLEL El.GPU)
    as (_ & _ & Hcopy & _).
  destruct (Hcopy cross_entropy_example workspace_store) as (c & h' & Hc & Hl & Hw).
  - intros a [= <-]. vm_compute. eauto.
  - exists c, h'. split; [exact Hc|]. split; [exact Hl|].
    destruct Hw as (a' & A & Ha' & HA & HA' & Hnew).
    exists a'. split; [exact Ha'|]. split.
    + intros ->. apply Hnew. vm_compute. reflexivity.
    + rewrite HA'. vm_compute in HA. exact (eq_sym HA).
Defined.

(** ** The cross entropy layer: parent layers *)

Section cross_entropy_parents.

Context {TensorDataType : El.elem_type} {T_layout : data_layout} {Dev : El.Device}.
Context {Tensors : Type} `{!external_code Tensors}.
Implicit Types this other : cross_entropy_layer.t TensorDataType T_layout Dev.

Import cross_entropy_layer.

Lemma copy_ctor_base other h this h' :
  copy_ctor other h = Ok (this, h') → base this = base other.
Proof.
  unfold copy_ctor. intros H.
  destruct (workspace_copy other h) as [[p h1]| |]; simpl in H; try discriminate.
  injection H as <- _. reflexivity.
Qed.

Lemma assign_base this other h this' h' :
  assign this other h = Ok (this', h') → base this' = base other.
Proof.
  unfold assign. intros H.
  destruct (workspace_copy other h) as [[p h1]| |]; simpl in H; try discriminate.
  injection H as <- _. reflexivity.
Qed.

(** C6.  The public constructor makes a layer that expects two parent
    layers, whatever its arguments; so does the default constructor;
    the copy constructor makes a layer that expects as many parent
    layers as the layer copied.  Hence every layer obtained from the
    constructors (and from assignments between such layers) expects
    exactly two parent layers. *)
Theorem cross_entropy_expects_two_parents :
  (∀ comm use_labels,
     m_expected_num_parent_layers
       (base (ctor comm use_labels : t TensorDataType T_layout Dev)) = 2)
  ∧ m_expected_num_parent_layers (base (default_ctor : t TensorDataType T_layout Dev)) = 2
  ∧ (∀ other h this h',
       copy_ctor other h = Ok (this, h') →
       m_expected_num_parent_layers (base this) = m_expected_num_parent_layers (base other))
  ∧ (∀ this, constructed this → m_expected_num_parent_layers (base this) = 2).
Proof.
  split; [|split; [|split]].
  - intros comm use_labels. reflexivity.
  - reflexivity.
  - intros other h this h' H. rewrite (copy_ctor_base _ _ _ _ H). reflexivity.
  - intros this Hc.
    induction Hc
      as [comm ul| |other h this h' _ IH H|this other h this' h' _ _ _ IH H].
    + reflexivity.
    + reflexivity.
    + rewrite (copy_ctor_base _ _ _ _ H). exact IH.
    + rewrite (assign_base _ _ _ _ _ H). exact IH.
Qed.

(** C9.  [is_distconv_supported] answers true exactly for the GPU
    device with the data-parallel layout.  With distconv enabled the
    assertion at the head of [fp_compute_distconv] and of
    [bp_compute_distconv] passes and the functions are the forward and
    backward calls of the adapter; without, it fails. *)
Theorem distconv_support this (s : Tensors) :
  (is_distconv_supported this = true ↔ Dev = El.GPU ∧ T_layout = DATA_PARALLEL)
  ∧ (distconv_enabled (base this) = true →
     assert_always "this->distconv_enabled()" (distconv_enabled (base this)) = Ok ()
     ∧ fp_compute_distconv this s = distconv_forward s
     ∧ bp_compute_distconv this s = distconv_backward s)
  ∧ (distconv_enabled (base this) = false →
     fp_compute_distconv this s = Throw (assertion_failed "this->distconv_enabled()")
     ∧ bp_compute_distconv this s = Throw (assertion_failed "this->distconv_enabled()")).
Proof.
  split; [|split].
  - unfold is_distconv_supported.
    rewrite andb_true_iff, !bool_decide_eq_true. tauto.
  - intros He. unfold fp_compute_distconv, bp_compute_distconv. rewrite He. done.
  - intros He. unfold fp_compute_distconv, bp_compute_distconv. rewrite He. done.
Qed.

End cross_entropy_parents.

Lemma cross_entropy_expects_two_parents_witness :
  ∃ c h',
    cross_entropy_layer.copy_ctor
      (cross_entropy_layer.default_ctor : cross_entropy_layer.t El.t_float DATA_PARALLEL El.GPU)
      ∅ = Ok (c, h')
    ∧ m_expected_num_parent_layers (cross_entropy_layer.base c) = 2.
Proof.
  assert (E : ∃ r, cross_entropy_layer.copy_ctor
                     (cross_entropy_layer.default_ctor
                      : cross_entropy_layer.t El.t_float DATA_PARALLEL El.GPU) ∅ = Ok r)
    by (eexists; reflexivity).
  destruct E as [[c h'] E]. exists c, h'. split; [exact E|].
  apply (@cross_entropy_expects_two_parents El.t_float DATA_PARALLEL El.GPU unit plain_runtime).
  exact (cross_entropy_layer.constructed_copy _ _ _ _
           cross_entropy_layer.constructed_default E).
Defined.

Lemma distconv_support_witness :
  let this : cross_entropy_layer.t El.t_float DATA_PARALLEL El.GPU :=
    cross_entropy_layer.with_base
      (mkLayer "ce" 2 [] [] [] mc_mr true) (cross_entropy_layer.ctor None false) in
  cross_entropy_layer.is_distconv_supported this = true
  ∧ cross_entropy_layer.fp_compute_distconv this () = Ok ()
  ∧ cross_entropy_layer.bp_compute_distconv this () = Ok ().
Proof.
  intros this.
  destruct (distconv_support this ()) as (Hs & He & _).
  split; [apply Hs; split; reflexivity|].
  destruct (He eq_refl) as (_ & Hf & Hb).
  split; [rewrite Hf | rewrite Hb]; reflexivity.
Defined.

(** ** The layer interface *)

Section interface.

Context {TensorDataType : El.elem_type} {Layout : data_layout} {Device : El.Device}.
Context {Tensors : Type} `{!external_code Tensors}.

(** C10.  Both classes implement the layer interface with their own
    [fp_compute] and [bp_compute]; through the interface, [get_type] is
    the string [cross entropy] for every cross entropy layer and
    [embedding] for every embedding layer, and [get_data_layout] and
    [get_device_allocation] are the layout and the device the class
    template was instantiated with. *)
Theorem layers_conform_to_interface :
  (∀ this : cross_entropy_layer.t TensorDataType Layout Device,
     get_type this = "cross entropy"
     ∧ get_data_layout this = Layout
     ∧ get_device_allocation this = Device
     ∧ fp_compute this = cross_entropy_layer.fp_compute this
     ∧ bp_compute this = cross_entropy_layer.bp_compute this)
  ∧ (∀ this : embedding_layer.t TensorDataType Layout Device,
     get_type this = "embedding"
     ∧ get_data_layout this = Layout
     ∧ get_device_allocation this = Device
     ∧ fp_compute this = embedding_layer.fp_compute this
     ∧ bp_compute this = embedding_layer.bp_compute this).
Proof.
  split; intros this; repeat split; reflexivity.
Qed.

End interface.

(** * Further properties of the code *)

(** ** The outcomes of [setup_data] *)

Section embedding_setup_data_outcomes.

Context {TensorDataType : El.elem_type} {Layout : data_layout} {Device : El.Device}.
Context {Tensors : Type} `{!external_code Tensors}.
Implicit Types this : embedding_layer.t TensorDataType Layout Device.
Implicit Types σ : world.

Import embedding_layer.

(** Past the weights check, [setup_data] is the padding step on the
    matrix the initializer wrote. *)
Lemma setup_data_padding_step cfg mb this σ b this1 σ1 p W0 :
  data_type_layer_setup_data mb (base this) = Ok b →
  construct_default_weights (with_base b this) σ = Ok (this1, σ1) →
  m_weights (base this1) = [p] →
  weights_store σ1 !! p = Some W0 →
  ∃ A0,
    w_values (initialized this1 W0) = Some A0
    ∧ El.elem A0 = w_elem W0
    ∧ El.Width A0 = m_num_embeddings this
    ∧ setup_data cfg mb this σ
      = (A' ← zero_out_padding cfg this1 A0;
         Ok (this1, mkWorld (the_model σ1)
                      (<[p := set_values A' (initialized this1 W0)]>
                         (<[p := initialized this1 W0]> (weights_store σ1))))).
Proof.
  intros Hb Hc Hp HW0.
  apply construct_default_weights_Ok in Hc as Hfields.
  destruct Hfields as (Hn & _). simpl in Hn.
  eexists. split; [reflexivity|]. split; [reflexivity|]. split.
  - simpl. unfold get_matrix_width. simpl. rewrite Hn. lia.
  - unfold setup_data. rewrite Hb. simpl. rewrite Hc. simpl.
    unfold check_num_weights, num_weights. rewrite Hp. simpl.
    unfold initialize_dictionary. rewrite (get_weights_single _ _ Hp). simpl.
    rewrite HW0. simpl. rewrite lookup_insert_eq. simpl. reflexivity.
Qed.

Lemma padding_guard_with_base cfg this this1 :
  m_embedding_dim this1 = m_embedding_dim this →
  m_padding_idx this1 = m_padding_idx this →
  padding_guard cfg this1 = padding_guard cfg this.
Proof. intros Hd Hi. unfold padding_guard. rewrite Hd, Hi. reflexivity. Qed.

(** Under the guard, on a matrix of a known element type, a padding
    index that is not a column makes the view leave the matrix. *)
Lemma zero_out_padding_out_of_bounds cfg this A :
  padding_guard cfg this = true →
  supported_elem_type cfg (El.elem A) = true →
  El.Width A ≤ m_padding_idx this →
  zero_out_padding cfg this A = Undefined.
Proof.
  intros Hg Hs Hw. unfold zero_out_padding.
  rewrite Hg, (zero_pad_embedding_supported _ _ _ Hs).
  unfold El.Zero_column. rewrite bool_decide_eq_false_2; [reflexivity|lia].
Qed.

(** The four ways [setup_data] ends once the layer holds one weights
    object. *)
Lemma setup_data_cases cfg mb this σ b this1 σ1 p W0 :
  data_type_layer_setup_data mb (base this) = Ok b →
  construct_default_weights (with_base b this) σ = Ok (this1, σ1) →
  m_weights (base this1) = [p] →
  weights_store σ1 !! p = Some W0 →
  (padding_guard cfg this = false → returns_normally (setup_data cfg mb this σ))
  ∧ (padding_guard cfg this = true → supported_elem_type cfg (w_elem W0) = false →
     setup_data cfg mb this σ = Throw could_not_determine_type)
  ∧ (padding_guard cfg this = true → supported_elem_type cfg (w_elem W0) = true →
     m_padding_idx this < m_num_embeddings this →
     returns_normally (setup_data cfg mb this σ))
  ∧ (padding_guard cfg this = true → supported_elem_type cfg (w_elem W0) = true →
     m_num_embeddings this ≤ m_padding_idx this →
     setup_data cfg mb this σ = Undefined).
Proof.
  intros Hb Hc Hp HW0.
  destruct (setup_data_padding_step cfg mb this σ b this1 σ1 p W0 Hb Hc Hp HW0)
    as (A0 & _ & He & Hw & Heq).
  apply construct_default_weights_Ok in Hc as Hfields.
  destruct Hfields as (_ & Hd & Hi & _). simpl in Hd, Hi.
  pose proof (padding_guard_with_base cfg this this1 Hd Hi) as Hg.
  split; [|split; [|split]].
  - intros Hguard. eapply setup_data_returns; eauto.
  - intros Hguard Hs. rewrite Heq.
    destruct (zero_out_padding_spec cfg this1 A0) as (_ & _ & Hthrow & _).
    rewrite Hthrow; [reflexivity|congruence|congruence].
  - intros Hguard Hs Hlt. eapply setup_data_returns; eauto.
  - intros Hguard Hs Hge. rewrite Heq.
    rewrite zero_out_padding_out_of_bounds; [reflexivity|congruence|congruence|].
    rewrite Hw, Hi. exact Hge.
Qed.

(** X3.  Once the base class has returned and the layer holds one
    weights object that is in the store, the view of the padding column
    leaves the weights matrix, so that [setup_data] has no defined
    behaviour, exactly when the guard holds, the element type is known
    and [padding_idx] is not below [num_embeddings]. *)
Theorem setup_data_out_of_bounds_iff cfg mb this σ b this1 σ1 p W0 :
  data_type_layer_setup_data mb (base this) = Ok b →
  construct_default_weights (with_base b this) σ = Ok (this1, σ1) →
  m_weights (base this1) = [p] →
  weights_store σ1 !! p = Some W0 →
  setup_data cfg mb this σ = Undefined
  ↔ padding_guard cfg this = true
    ∧ supported_elem_type cfg (w_elem W0) = true
    ∧ m_num_embeddings this ≤ m_padding_idx this.
Proof.
  intros Hb Hc Hp HW0.
  destruct (setup_data_cases cfg mb this σ b this1 σ1 p W0 Hb Hc Hp HW0)
    as (Hfalse & Hthrow & Hok & Hundef).
  split.
  - intros Hu.
    destruct (padding_guard cfg this) eqn:Hg.
    + split; [reflexivity|].
      destruct (supported_elem_type cfg (w_elem W0)) eqn:Hs.
      * split; [reflexivity|].
        destruct (Z_lt_le_dec (m_padding_idx this) (m_num_embeddings this)) as [Hlt|Hge];
          [|exact Hge].
        destruct (Hok eq_refl eq_refl Hlt) as [r Hr]. congruence.
      * rewrite (Hthrow eq_refl eq_refl) in Hu. discriminate.
    + destruct (Hfalse eq_refl) as [r Hr]. congruence.
  - intros (Hg & Hs & Hge). exact (Hundef Hg Hs Hge).
Qed.

End embedding_setup_data_outcomes.

(** ** What [setup_data] changes and what it leaves alone *)

Section embedding_setup_data_frame.

Context {TensorDataType : El.elem_type} {Layout : data_layout} {Device : El.Device}.
Context {Tensors : Type} `{!external_code Tensors}.
Implicit Types this : embedding_layer.t TensorDataType Layout Device.
Implicit Types σ : world.

Import embedding_layer.

(** The first block, in full: nothing happens to a layer with weights;
    a layer without gets the default weights at a new address. *)
Lemma construct_default_weights_inv this σ this1 σ1 :
  construct_default_weights this σ = Ok (this1, σ1) →
  (has_weights (base this) = true ∧ this1 = this ∧ σ1 = σ)
  ∨ (has_weights (base this) = false
     ∧ ∃ p W,
         (p ∉ dom (weights_store σ))
         ∧ this1 = with_base (add_weights p (base this)) this
         ∧ m_weights (base this1) = [p]
         ∧ σ1 = mkWorld (model_add_weights p (the_model σ)) (<[p := W]> (weights_store σ))
         ∧ w_name W = get_name (base this) +:+ "_weights"
         ∧ w_initializer W = Some (normal_initializer El.TypeTraits_Zero El.TypeTraits_One)
         ∧ w_optimizer W = create_optimizer (the_model σ)
         ∧ w_elem W = TensorDataType
         ∧ w_comm W = get_comm (the_model σ)).
Proof.
  unfold construct_default_weights.
  destruct (has_weights (base this)) eqn:Hw; simpl.
  - intros [= <- <-]. left. done.
  - intros [= <- <-]. right. split; [reflexivity|].
    eexists _, _. split; [apply is_fresh|]. split; [reflexivity|].
    unfold has_weights, num_weights in Hw. apply bool_decide_eq_false in Hw.
    destruct (m_weights (base this)) as [|q l] eqn:Hl; [|exfalso; apply Hw; simpl; lia].
    simpl. rewrite ?Hl. repeat split; done.
Qed.

(** X4.  When [setup_data] returns, every weights object of the store
    other than the one of the layer is as it was, the communicator and
    the default optimizer of the model are as they were, the weights of
    the model are those it had, followed by the pointer of the layer if
    the layer came without weights; and the three members of the layer
    are unchanged. *)
Theorem setup_data_frame cfg mb this σ this' σ' :
  setup_data cfg mb this σ = Ok (this', σ') →
  ∃ b p,
    data_type_layer_setup_data mb (base this) = Ok b
    ∧ m_weights (base this') = [p]
    ∧ (∀ q, q ≠ p → weights_store σ' !! q = weights_store σ !! q)
    ∧ model_comm (the_model σ') = model_comm (the_model σ)
    ∧ model_default_optimizer (the_model σ') = model_default_optimizer (the_model σ)
    ∧ model_weights (the_model σ')
      = model_weights (the_model σ) ++ (if has_weights b then [] else [p])
    ∧ m_num_embeddings this' = m_num_embeddings this
    ∧ m_embedding_dim this' = m_embedding_dim this
    ∧ m_padding_idx this' = m_padding_idx this.
Proof.
  intros H.
  apply setup_data_Ok in H
    as (b & σ1 & p & W0 & A0 & A' & Hb & Hc & Hp & HW0 & HA0 & HA' & ->).
  exists b, p. split; [exact Hb|]. split; [exact Hp|]. simpl.
  apply construct_default_weights_inv in Hc as Hinv. simpl in Hinv.
  destruct Hinv as [(Hw & -> & ->)|(Hw & q & W & Hq & -> & Hq' & -> & _)].
  - rewrite Hw. simpl. rewrite app_nil_r.
    repeat split; try done.
    intros r Hr. rewrite !lookup_insert_ne; done.
  - rewrite Hw. simpl in *. rewrite Hq' in Hp. injection Hp as <-.
    repeat split; try done.
    intros r Hr. rewrite !lookup_insert_ne; done.
Qed.

(** X5.  On a layer that comes without weights, a normal return of
    [setup_data] leaves the layer and the model pointing to one and the
    same new weights object: the pointer of the layer is the last of the
    model, it was not in use before, and the object it names has the
    default name, initializer and optimizer, the element type of the
    layer and the dimensions of the table. *)
Theorem setup_data_shares_default_weights cfg mb this σ b this' σ' :
  data_type_layer_setup_data mb (base this) = Ok b →
  has_weights b = false →
  setup_data cfg mb this σ = Ok (this', σ') →
  ∃ p W,
    m_weights (base this') = [p]
    ∧ (p ∉ dom (weights_store σ))
    ∧ last (model_weights (the_model σ')) = Some p
    ∧ weights_store σ' !! p = Some W
    ∧ w_name W = get_name b +:+ "_weights"
    ∧ w_initializer W = Some (normal_initializer El.TypeTraits_Zero El.TypeTraits_One)
    ∧ w_optimizer W = create_optimizer (the_model σ)
    ∧ w_elem W = TensorDataType
    ∧ w_matrix_height_dims W = [m_embedding_dim this]
    ∧ w_matrix_width_dims W = [m_num_embeddings this].
Proof.
  intros Hb Hw H.
  apply setup_data_Ok in H
    as (b' & σ1 & p & W0 & A0 & A' & Hb' & Hc & Hp & HW0 & HA0 & HA' & ->).
  rewrite Hb in Hb'. injection Hb' as <-.
  apply construct_default_weights_inv in Hc as Hinv. simpl in Hinv.
  destruct Hinv as [(Hw' & _)|(_ & q & W & Hq & -> & Hq' & -> & Hn & Hi & Ho & He & _)];
    [congruence|].
  simpl in *. rewrite Hq' in Hp. injection Hp as <-.
  rewrite lookup_insert_eq in HW0. injection HW0 as <-.
  exists q. eexists. split; [exact Hq'|]. split; [exact Hq|].
  split; [apply last_snoc|]. rewrite lookup_insert_eq.
  split; [reflexivity|]. simpl. repeat split; done.
Qed.

(** X6.  On a layer that comes with one weights object, a normal return
    of [setup_data] has created nothing: the model is as it was, the
    store holds the same addresses, the layer holds the same pointer,
    and the weights object keeps its name, initializer, optimizer,
    communicator and element type; its dimensions, distribution and
    values are the ones set. *)
Theorem setup_data_keeps_user_weights cfg mb this σ b this' σ' :
  data_type_layer_setup_data mb (base this) = Ok b →
  has_weights b = true →
  setup_data cfg mb this σ = Ok (this', σ') →
  the_model σ' = the_model σ
  ∧ dom (weights_store σ') = dom (weights_store σ)
  ∧ m_weights (base this') = m_weights b
  ∧ ∃ p W0 W,
      m_weights b = [p]
      ∧ weights_store σ !! p = Some W0
      ∧ weights_store σ' !! p = Some W
      ∧ w_name W = w_name W0
      ∧ w_initializer W = w_initializer W0
      ∧ w_optimizer W = w_optimizer W0
      ∧ w_comm W = w_comm W0
      ∧ w_elem W = w_elem W0
      ∧ w_matrix_height_dims W = [m_embedding_dim this]
      ∧ w_matrix_width_dims W = [m_num_embeddings this].
Proof.
  intros Hb Hw H.
  apply setup_data_Ok in H
    as (b' & σ1 & p & W0 & A0 & A' & Hb' & Hc & Hp & HW0 & HA0 & HA' & ->).
  rewrite Hb in Hb'. injection Hb' as <-.
  apply construct_default_weights_inv in Hc as Hinv. simpl in Hinv.
  destruct Hinv as [(_ & -> & ->)|(Hw' & _)]; [|congruence].
  simpl in *. split; [reflexivity|]. split.
  - rewrite dom_insert_lookup_L by (rewrite lookup_insert_eq; eauto).
    apply dom_insert_lookup_L. eauto.
  - split; [reflexivity|].
    exists p, W0. eexists. split; [exact Hp|]. split; [exact HW0|].
    rewrite lookup_insert_eq. split; [reflexivity|]. simpl. repeat split; done.
Qed.

(** X7.  Once the base class has returned, [setup_data] throws the error
    of the weights check exactly when the layer comes with two or more
    weights objects, and the error then carries the type [embedding],
    the name of the layer and the number of weights found; a layer with
    none or one never gets it. *)
Theorem setup_data_weights_error_iff cfg mb this σ b :
  data_type_layer_setup_data mb (base this) = Ok b →
  ((∃ ty nm n, setup_data cfg mb this σ = Throw (invalid_number_of_weights ty nm n))
   ↔ (2 ≤ num_weights b)%nat)
  ∧ ((2 ≤ num_weights b)%nat →
     setup_data cfg mb this σ
     = Throw (invalid_number_of_weights "embedding" (get_name b) (num_weights b))).
Proof.
  intros Hb.
  assert (Hthrow : (2 ≤ num_weights b)%nat →
            setup_data cfg mb this σ
            = Throw (invalid_number_of_weights "embedding" (get_name b) (num_weights b))).
  { intros Hn. unfold setup_data. rewrite Hb. simpl.
    unfold construct_default_weights. simpl.
    assert (Hw : has_weights b = true).
    { unfold has_weights. apply bool_decide_eq_true. lia. }
    rewrite Hw. simpl.
    rewrite check_num_weights_Throw; [reflexivity|simpl; lia]. }
  split; [split|exact Hthrow].
  - intros (ty & nm & n & He).
    destruct (construct_default_weights (with_base b this) σ) as [[this1 σ1]| |] eqn:Hc.
    + destruct (decide (num_weights (base this1) = 1%nat)) as [Hone|Hne].
      * exfalso.
        exact (setup_data_no_weights_error _ _ _ _ _ _ _ _ _ _ Hb Hc Hone He).
      * apply construct_default_weights_inv in Hc as Hinv. simpl in Hinv.
        destruct Hinv as [(Hw & -> & _)|(_ & q & W & _ & _ & Hq & _)].
        -- simpl in Hne. unfold has_weights in Hw. apply bool_decide_eq_true in Hw. lia.
        -- exfalso. apply Hne. unfold num_weights. rewrite Hq. reflexivity.
    + unfold construct_default_weights in Hc.
      destruct (negb (has_weights (base (with_base b this)))); discriminate.
    + unfold construct_default_weights in Hc.
      destruct (negb (has_weights (base (with_base b this)))); discriminate.
  - intros Hn. eexists _, _, _. exact (Hthrow Hn).
Qed.

(** X9.  An embedding dimension in the upper half of the range of the
    unsigned type as wide as [El::Int] becomes negative in the guard, and
    the guard then fails for every padding index: nothing is zeroed. *)
Theorem padding_guard_wrapped_embedding_dim cfg this :
  2 ^ (El.Int_bits cfg - 1) ≤ m_embedding_dim this < 2 ^ El.Int_bits cfg →
  El.static_cast_Int cfg (m_embedding_dim this) < 0
  ∧ padding_guard cfg this = false
  ∧ ∀ A, zero_out_padding cfg this A = Ok A.
Proof.
  intros Hd.
  assert (Hneg : El.static_cast_Int cfg (m_embedding_dim this) < 0).
  { unfold El.static_cast_Int, Cxx.to_signed.
    assert (Hb : 0 < El.Int_bits cfg)
      by (unfold El.Int_bits; destruct (EL_USE_64BIT_INTS cfg); lia).
    assert (H2 : 2 ^ El.Int_bits cfg = 2 * 2 ^ (El.Int_bits cfg - 1)).
    { replace (El.Int_bits cfg) with (Z.succ (El.Int_bits cfg - 1)) at 1 by lia.
      apply Z.pow_succ_r. lia. }
    replace (m_embedding_dim this + 2 ^ (El.Int_bits cfg - 1))
      with (m_embedding_dim this - 2 ^ (El.Int_bits cfg - 1) + 1 * 2 ^ El.Int_bits cfg)
      by lia.
    rewrite Z_mod_plus_full, Z.mod_small; lia. }
  assert (Hg : padding_guard cfg this = false).
  { unfold padding_guard. apply andb_false_iff.
    destruct (decide (0 ≤ m_padding_idx this)).
    - right. apply bool_decide_eq_false. lia.
    - left. apply bool_decide_eq_false. lia. }
  split; [exact Hneg|]. split; [exact Hg|].
  intros A. unfold zero_out_padding. rewrite Hg. reflexivity.
Qed.

End embedding_setup_data_frame.

(** ** The trailing output dimension *)

Section embedding_dims_more.

Context {TensorDataType : El.elem_type} {Layout : data_layout} {Device : El.Device}.
Context {Tensors : Type} `{!external_code Tensors}.
Implicit Types this : embedding_layer.t TensorDataType Layout Device.
Implicit Types σ : world.

Import embedding_layer.

Lemma static_cast_int_spec (x : Z) :
  - 2 ^ 31 ≤ Cxx.static_cast_int x ≤ Cxx.INT_MAX
  ∧ (Cxx.static_cast_int x - x) mod 2 ^ 32 = 0
  ∧ (Cxx.static_cast_int x < 0 ↔ 2 ^ 31 ≤ x mod 2 ^ 32).
Proof.
  unfold Cxx.static_cast_int, Cxx.to_signed, Cxx.INT_MAX.
  change (2 ^ (32 - 1)) with 2147483648.
  change (2 ^ 31) with 2147483648. change (2 ^ 32) with 4294967296.
  Z.to_euclidean_division_equations. lia.
Qed.

(** X10.  The dimension [setup_dims] appends is always a value of
    [int]; it differs from [embedding_dim] by a multiple of [2^32], and
    it is negative exactly when [embedding_dim] modulo [2^32] is [2^31]
    or more. *)
Theorem setup_dims_trailing_dimension this :
  ∃ d,
    get_output_dims (base (setup_dims this))
    = get_input_dims (data_type_layer_setup_dims (base this)) ++ [d]
    ∧ last (get_output_dims (base (setup_dims this))) = Some d
    ∧ - 2 ^ 31 ≤ d ≤ Cxx.INT_MAX
    ∧ (d - m_embedding_dim this) mod 2 ^ 32 = 0
    ∧ (d < 0 ↔ 2 ^ 31 ≤ m_embedding_dim this mod 2 ^ 32).
Proof.
  exists (Cxx.static_cast_int (m_embedding_dim this)).
  split; [reflexivity|]. split; [apply last_snoc|].
  apply static_cast_int_spec.
Qed.

(** X11.  The two setup functions agree: for an embedding dimension
    that fits [int], the dimension [setup_dims] appends to the output
    dimensions is the height of the weights matrix [setup_data] builds,
    the length of one embedding vector. *)
Theorem setup_dims_agrees_with_setup_data cfg mb this σ this' σ' :
  0 ≤ m_embedding_dim this ≤ Cxx.INT_MAX →
  setup_data cfg mb (setup_dims this) σ = Ok (this', σ') →
  ∃ p W A,
    m_weights (base this') = [p]
    ∧ weights_store σ' !! p = Some W
    ∧ get_values_sharded W = Some A
    ∧ last (get_output_dims (base (setup_dims this))) = Some (El.Height A)
    ∧ get_matrix_height W = El.Height A.
Proof.
  intros Hdim H.
  apply setup_data_weights in H
    as (b & p & W0 & A0 & A' & _ & Hp & HW & HA0 & HA' & _ & Hd & _).
  apply zero_out_padding_shape in HA' as (_ & Hh & _).
  injection HA0 as <-. simpl in Hh, Hd.
  eexists p, _, A'. split; [exact Hp|]. split; [exact HW|]. split; [reflexivity|].
  assert (HA : El.Height A' = m_embedding_dim this).
  { rewrite Hh. unfold get_matrix_height. simpl. lia. }
  split.
  - unfold setup_dims. simpl. rewrite last_snoc, HA.
    rewrite (static_cast_int_id _ Hdim). reflexivity.
  - rewrite HA. unfold get_matrix_height. simpl. lia.
Qed.

(** X12.  The padding step is idempotent: applied to its own result it
    returns a matrix of the same shape with the same entries. *)
Theorem zero_out_padding_idempotent cfg this A A' :
  zero_out_padding cfg this A = Ok A' →
  ∃ A'',
    zero_out_padding cfg this A' = Ok A''
    ∧ (∀ i j, El.Get A'' i j = El.Get A' i j)
    ∧ El.elem A'' = El.elem A'
    ∧ El.Height A'' = El.Height A'
    ∧ El.Width A'' = El.Width A'
    ∧ El.DistData_of A'' = El.DistData_of A'.
Proof.
  unfold zero_out_padding. destruct (padding_guard cfg this) eqn:Hg.
  - intros HA. apply zero_pad_embedding_Ok in HA as [HA Hs].
    apply Zero_column_Some in HA as (Hj & He & Hh & Hw & Hd & Hz & Hother).
    rewrite zero_pad_embedding_supported by (rewrite He; exact Hs).
    unfold El.Zero_column. rewrite bool_decide_eq_true_2 by (rewrite Hw; exact Hj).
    eexists. split; [reflexivity|]. simpl. repeat split; try done.
    intros i j. case_bool_decide as Hc; [|reflexivity].
    subst j. symmetry. apply Hz.
  - intros [= <-]. exists A. repeat split; done.
Qed.

End embedding_dims_more.

(** ** The workspace of a cross entropy layer under copies *)

Section cross_entropy_workspace.

Context {TensorDataType : El.elem_type} {T_layout : data_layout} {Dev : El.Device}.
Implicit Types this other c : cross_entropy_layer.t TensorDataType T_layout Dev.
Implicit Types h : gmap loc El.AbstractDistMatrix.

Import cross_entropy_layer.

(** X14.  The copy constructor touches no matrix that exists: every
    address in use keeps its matrix, so the original still owns its
    workspace; the copy owns its own, at an address that was not in use;
    copying a layer without workspace leaves the store as it is.  The
    state of the base class is the one of the original. *)
Theorem copy_ctor_frame this h c h' :
  owns_workspace h this →
  copy_ctor this h = Ok (c, h') →
  (∀ a, a ∈ dom h → h' !! a = h !! a)
  ∧ owns_workspace h' this
  ∧ owns_workspace h' c
  ∧ (∀ a, m_workspace c = Some a → a ∉ dom h)
  ∧ (m_workspace this = None → h' = h ∧ m_workspace c = None)
  ∧ base c = base this.
Proof.
  intros Hown H.
  destruct (workspace_copy_spec this h Hown) as (p & h1 & Hc & Hcopy & Hsame & Hfresh).
  unfold copy_ctor in H. rewrite Hc in H. simpl in H. injection H as <- <-.
  assert (Hkeep : ∀ a, a ∈ dom h → h1 !! a = h !! a).
  { intros a Ha. apply Hsame. intros ->. exact (Hfresh a eq_refl Ha). }
  split; [exact Hkeep|]. split; [|split; [|split; [|split]]].
  - intros a Ha. destruct (Hown a Ha) as [A HA].
    rewrite Hkeep by (apply elem_of_dom; eauto). eauto.
  - intros a Ha. simpl in Ha. subst p.
    unfold workspace_is_copy in Hcopy.
    destruct (m_workspace this) as [a0|]; [|discriminate].
    destruct Hcopy as (a' & A & [= <-] & _ & HA' & _). eauto.
  - intros a Ha. simpl in Ha. exact (Hfresh a Ha).
  - intros Hnone. unfold workspace_copy in Hc. rewrite Hnone in Hc.
    injection Hc as <- <-. done.
  - reflexivity.
Qed.

(** X15.  The copy assignment and the store: the workspace the layer
    owned before is destroyed, every other matrix that exists is kept,
    the layer owns its new workspace, and the layer assigned from still
    owns its own as long as it is not the workspace just destroyed (as
    it is when a layer is assigned to itself). *)
Theorem assign_store this other h c h' :
  owns_workspace h this →
  owns_workspace h other →
  assign this other h = Ok (c, h') →
  (∀ old, m_workspace this = Some old → h' !! old = None)
  ∧ (∀ a, a ∈ dom h → m_workspace this ≠ Some a → h' !! a = h !! a)
  ∧ owns_workspace h' c
  ∧ (∀ a, m_workspace c = Some a → a ∉ dom h)
  ∧ (m_workspace other ≠ m_workspace this ∨ m_workspace other = None →
     owns_workspace h' other).
Proof.
  intros Hthis Hother H.
  destruct (workspace_copy_spec other h Hother) as (p & h1 & Hc & Hcopy & Hsame & Hfresh).
  unfold assign in H. simpl in H. rewrite Hc in H. simpl in H. injection H as <- <-.
  assert (Hkeep : ∀ a, a ∈ dom h → h1 !! a = h !! a).
  { intros a Ha. apply Hsame. intros ->. exact (Hfresh a eq_refl Ha). }
  assert (Hold : ∀ old, m_workspace this = Some old → old ∈ dom h).
  { intros old Ho. apply elem_of_dom, Hthis, Ho. }
  split; [|split; [|split; [|split]]].
  - intros old Ho. rewrite Ho. apply lookup_delete_eq.
  - intros a Ha Hne.
    destruct (m_workspace this) as [old|]; [|exact (Hkeep a Ha)].
    rewrite lookup_delete_ne by congruence. exact (Hkeep a Ha).
  - intros a Ha. simpl in Ha. subst p.
    unfold workspace_is_copy in Hcopy.
    destruct (m_workspace other) as [a0|]; [|discriminate].
    destruct Hcopy as (a' & A & [= <-] & _ & HA' & Hnew).
    destruct (m_workspace this) as [old|] eqn:Ho; [|eauto].
    rewrite lookup_delete_ne; [eauto|].
    intros <-. exact (Hnew (Hold _ eq_refl)).
  - intros a Ha. simpl in Ha. exact (Hfresh a Ha).
  - intros Hdiff a Ha. destruct (Hother a Ha) as [A HA].
    assert (Hin : a ∈ dom h) by (apply elem_of_dom; eauto).
    destruct (m_workspace this) as [old|] eqn:Ho.
    + rewrite lookup_delete_ne.
      * rewrite (Hkeep a Hin). eauto.
      * intros <-. destruct Hdiff as [Hd|Hd]; congruence.
    + rewrite (Hkeep a Hin). eauto.
Qed.

End cross_entropy_workspace.

(** ** The description of an embedding layer *)

Section embedding_description.

Context {TensorDataType : El.elem_type} {Layout : data_layout} {Device : El.Device}.
Context `{!external_description}.
Implicit Types this other : embedding_layer.t TensorDataType Layout Device.

Import embedding_layer.

(** X16.  [get_description] keeps the fields of the description of the
    base class and adds three after them, in the order [Num embeddings],
    [Embedding dim], [Padding index]; two layers with the same
    description have the same three members, whatever their base
    classes describe. *)
Theorem get_description_fields this :
  get_description this
  = data_type_layer_get_description (base this)
    ++ [("Num embeddings", value_size_t (m_num_embeddings this));
        ("Embedding dim", value_size_t (m_embedding_dim this));
        ("Padding index", value_Int (m_padding_idx this))]
  ∧ length (get_description this)
    = (length (data_type_layer_get_description (base this)) + 3)%nat
  ∧ ∀ other,
      get_description this = get_description other →
      m_num_embeddings this = m_num_embeddings other
      ∧ m_embedding_dim this = m_embedding_dim other
      ∧ m_padding_idx this = m_padding_idx other
      ∧ data_type_layer_get_description (base this)
        = data_type_layer_get_description (base other).
Proof.
  assert (Heq : ∀ l : embedding_layer.t TensorDataType Layout Device,
            get_description l
            = data_type_layer_get_description (base l)
              ++ [("Num embeddings", value_size_t (m_num_embeddings l));
                  ("Embedding dim", value_size_t (m_embedding_dim l));
                  ("Padding index", value_Int (m_padding_idx l))]).
  { intros l. unfold get_description, description_add.
    rewrite <- !app_assoc. reflexivity. }
  split; [apply Heq|]. split.
  - rewrite Heq, length_app. reflexivity.
  - intros other Hsame. rewrite !Heq in Hsame.
    apply app_inj_2 in Hsame as [Hbase Hfields]; [|reflexivity].
    injection Hfields as Hn Hd Hp. done.
Qed.

End embedding_description.

(** ** The further properties on examples *)

Lemma setup_data_out_of_bounds_iff_witness :
  embedding_layer.setup_data build64 32 (embedding_with_weights 2 4 3 [3%nat])
    (user_world El.t_double)
  = Undefined.
Proof.
  apply (setup_data_out_of_bounds_iff build64 32 (embedding_with_weights 2 4 3 [3%nat])
           (user_world El.t_double)
           (embedding_layer.base (embedding_with_weights 2 4 3 [3%nat]))
           (embedding_with_weights 2 4 3 [3%nat]) (user_world El.t_double)
           3%nat (user_weights El.t_double)).
  - reflexivity.
  - reflexivity.
  - reflexivity.
  - vm_compute. reflexivity.
  - split; [reflexivity|]. split; [reflexivity|]. vm_compute. discriminate.
Defined.

Lemma setup_data_frame_witness :
  ∃ this' σ' p,
    embedding_layer.setup_data build64 32 (embedding_example 1000 128 0 [7])
      (user_world El.t_double) = Ok (this', σ')
    ∧ m_weights (embedding_layer.base this') = [p]
    ∧ (3%nat ≠ p → weights_store σ' !! 3%nat = Some (user_weights El.t_double))
    ∧ model_weights (the_model σ') = [3%nat; p].
Proof.
  assert (E : ∃ r, embedding_layer.setup_data build64 32
                     (embedding_example 1000 128 0 [7]) (user_world El.t_double) = Ok r)
    by (eexists; vm_compute; reflexivity).
  destruct E as [[this' σ'] E].
  destruct (setup_data_frame _ _ _ _ _ _ E)
    as (b & p & Hb & Hp & Hother & _ & _ & Hmodel & _).
  injection Hb as <-.
  exists this', σ', p. split; [exact E|]. split; [exact Hp|]. split.
  - intros Hne. etransitivity; [exact (Hother _ Hne)|]. vm_compute. reflexivity.
  - exact Hmodel.
Defined.

Lemma setup_data_shares_default_weights_witness :
  ∃ this' σ' p W,
    embedding_layer.setup_data build64 32 (embedding_example 1000 128 0 [7]) empty_world
    = Ok (this', σ')
    ∧ m_weights (embedding_layer.base this') = [p]
    ∧ last (model_weights (the_model σ')) = Some p
    ∧ weights_store σ' !! p = Some W
    ∧ w_name W = "emb_weights".
Proof.
  assert (E : ∃ r, embedding_layer.setup_data build64 32
                     (embedding_example 1000 128 0 [7]) empty_world = Ok r)
    by (eexists; vm_compute; reflexivity).
  destruct E as [[this' σ'] E].
  destruct (setup_data_shares_default_weights build64 32
              (embedding_example 1000 128 0 [7]) empty_world
              (embedding_layer.base (embedding_example 1000 128 0 [7])) this' σ')
    as (p & W & Hp & _ & Hlast & HW & Hname & _);
    [reflexivity|reflexivity|exact E|].
  exists this', σ', p, W. repeat split; assumption.
Defined.

Lemma setup_data_keeps_user_weights_witness :
  ∃ this' σ' W,
    embedding_layer.setup_data build64 32 (embedding_with_weights 1000 128 0 [3%nat])
      (user_world El.t_float) = Ok (this', σ')
    ∧ the_model σ' = the_model (user_world El.t_float)
    ∧ m_weights (embedding_layer.base this') = [3%nat]
    ∧ weights_store σ' !! 3%nat = Some W
    ∧ w_name W = "user"
    ∧ w_matrix_height_dims W = [128].
Proof.
  assert (E : ∃ r, embedding_layer.setup_data build64 32
                     (embedding_with_weights 1000 128 0 [3%nat])
                     (user_world El.t_float) = Ok r)
    by (eexists; vm_compute; reflexivity).
  destruct E as [[this' σ'] E].
  destruct (setup_data_keeps_user_weights build64 32
              (embedding_with_weights 1000 128 0 [3%nat]) (user_world El.t_float)
              (embedding_layer.base (embedding_with_weights 1000 128 0 [3%nat])) this' σ')
    as (Hmodel & _ & Hws & p & W0 & W & Hp & HW0 & HW & Hname & _ & _ & _ & _ & Hh & _);
    [reflexivity|reflexivity|exact E|].
  injection Hp as <-.
  assert (W0 = user_weights El.t_float) as ->.
  { vm_compute in HW0. injection HW0 as <-. reflexivity. }
  exists this', σ', W. repeat split; assumption.
Defined.

Lemma setup_data_weights_error_iff_witness :
  embedding_layer.setup_data build64 32 (embedding_with_weights 10 4 (-1) [3%nat; 4%nat])
    (user_world El.t_float)
  = Throw (invalid_number_of_weights "embedding" "emb" 2).
Proof.
  destruct (setup_data_weights_error_iff build64 32
              (embedding_with_weights 10 4 (-1) [3%nat; 4%nat]) (user_world El.t_float)
              (embedding_layer.base (embedding_with_weights 10 4 (-1) [3%nat; 4%nat])))
    as [_ Hthrow]; [reflexivity|].
  apply Hthrow. vm_compute. lia.
Defined.

Lemma padding_guard_wrapped_embedding_dim_witness :
  embedding_layer.padding_guard build64 (embedding_example 1000 (2 ^ 63) 5 [7]) = false.
Proof.
  apply (padding_guard_wrapped_embedding_dim build64 (embedding_example 1000 (2 ^ 63) 5 [7])).
  vm_compute. split; [discriminate|reflexivity].
Defined.

Lemma setup_dims_trailing_dimension_witness :
  ∃ d,
    last (get_output_dims
            (embedding_layer.base
               (embedding_layer.setup_dims (embedding_example 1000 (2 ^ 32 + 5) (-1) [7]))))
    = Some d
    ∧ (d - (2 ^ 32 + 5)) mod 2 ^ 32 = 0.
Proof.
  destruct (setup_dims_trailing_dimension (embedding_example 1000 (2 ^ 32 + 5) (-1) [7]))
    as (d & _ & Hlast & _ & Hmod & _).
  exists d. split; [exact Hlast | exact Hmod].
Defined.

Lemma setup_dims_agrees_with_setup_data_witness :
  ∃ this' σ' p W A,
    embedding_layer.setup_data build64 32
      (embedding_layer.setup_dims (embedding_example 1000 128 (-1) [7])) empty_world
    = Ok (this', σ')
    ∧ weights_store σ' !! p = Some W
    ∧ get_values_sharded W = Some A
    ∧ last (get_output_dims
              (embedding_layer.base
                 (embedding_layer.setup_dims (embedding_example 1000 128 (-1) [7]))))
      = Some (El.Height A).
Proof.
  assert (E : ∃ r, embedding_layer.setup_data build64 32
                     (embedding_layer.setup_dims (embedding_example 1000 128 (-1) [7]))
                     empty_world = Ok r)
    by (eexists; vm_compute; reflexivity).
  destruct E as [[this' σ'] E].
  destruct (setup_dims_agrees_with_setup_data build64 32
              (embedding_example 1000 128 (-1) [7]) empty_world this' σ')
    as (p & W & A & _ & HW & HA & Hlast & _).
  - vm_compute. split; discriminate.
  - exact E.
  - exists this', σ', p, W, A. repeat split; assumption.
Defined.

Lemma zero_out_padding_idempotent_witness :
  ∃ A' A'',
    embedding_layer.zero_out_padding build64 (embedding_example 3 4 1 [7]) workspace_example
    = Ok A'
    ∧ embedding_layer.zero_out_padding build64 (embedding_example 3 4 1 [7]) A' = Ok A''
    ∧ ∀ i j, El.Get A'' i j = El.Get A' i j.
Proof.
  assert (E : ∃ r, embedding_layer.zero_out_padding build64 (embedding_example 3 4 1 [7])
                     workspace_example = Ok r)
    by (eexists; vm_compute; reflexivity).
  destruct E as [A' E].
  destruct (zero_out_padding_idempotent _ _ _ _ E) as (A'' & HA'' & Hget & _).
  exists A', A''. repeat split; assumption.
Defined.

Lemma copy_ctor_frame_witness :
  ∃ c h',
    cross_entropy_layer.copy_ctor cross_entropy_example workspace_store = Ok (c, h')
    ∧ h' !! 5%nat = Some workspace_example
    ∧ owns_workspace h' cross_entropy_example
    ∧ owns_workspace h' c.
Proof.
  assert (E : ∃ r, cross_entropy_layer.copy_ctor cross_entropy_example workspace_store = Ok r)
    by (eexists; vm_compute; reflexivity).
  destruct E as [[c h'] E].
  destruct (copy_ctor_frame cross_entropy_example workspace_store c h')
    as (Hkeep & Hthis & Hc & _).
  - intros a [= <-]. vm_compute. eauto.
  - exact E.
  - exists c, h'. split; [exact E|]. split; [|split; assumption].
    etransitivity; [apply Hkeep|vm_compute; reflexivity].
    apply elem_of_dom. vm_compute. eauto.
Defined.

Lemma assign_store_witness :
  ∃ c h',
    cross_entropy_layer.assign cross_entropy_example cross_entropy_example workspace_store
    = Ok (c, h')
    ∧ h' !! 5%nat = None
    ∧ owns_workspace h' c.
Proof.
  assert (E : ∃ r, cross_entropy_layer.assign cross_entropy_example cross_entropy_example
                     workspace_store = Ok r)
    by (eexists; vm_compute; reflexivity).
  destruct E as [[c h'] E].
  assert (Hown : owns_workspace workspace_store cross_entropy_example).
  { intros a [= <-]. vm_compute. eauto. }
  destruct (assign_store cross_entropy_example cross_entropy_example workspace_store c h'
              Hown Hown E) as (Hold & _ & Hc & _).
  exists c, h'. split; [exact E|]. split; [|exact Hc].
  apply Hold. reflexivity.
Defined.

Lemma get_description_fields_witness :
  embedding_layer.get_description (embedding_example 1000 128 (-1) [7])
  = [("Num embeddings", value_size_t 1000);
     ("Embedding dim", value_size_t 128);
     ("Padding index", value_Int (-1))]
  ∧ embedding_layer.m_padding_idx
      (embedding_layer.copy (embedding_example 1000 128 (-1) [7])) = -1.
Proof.
  destruct (get_description_fields (embedding_example 1000 128 (-1) [7]))
    as (Hfields & _ & Hinj).
  split; [exact Hfields|].
  destruct (Hinj (embedding_layer.copy (embedding_example 1000 128 (-1) [7])) eq_refl)
    as (_ & _ & Hp & _).
  rewrite <- Hp. reflexivity.
Defined.

(** ** The padding block of [setup_data] on a matrix of values

    The block "Zero out embedding vector for padding index" by itself,
    applied to the matrix of values the weights hand out. *)

Section embedding_padding_block.

Context {TensorDataType : El.elem_type} {Layout : data_layout} {Device : El.Device}.
Implicit Types this : embedding_layer.t TensorDataType Layout Device.
Implicit Types A : El.AbstractDistMatrix.

Import embedding_layer.

(** The block, case by case. *)
Lemma zero_out_padding_cases cfg this A :
  (padding_guard cfg this = false → zero_out_padding cfg this A = Ok A)
  ∧ (padding_guard cfg this = true → supported_elem_type cfg (El.elem A) = false →
     zero_out_padding cfg this A = Throw could_not_determine_type)
  ∧ (padding_guard cfg this = true → supported_elem_type cfg (El.elem A) = true →
     m_padding_idx this < El.Width A →
     ∃ A', zero_out_padding cfg this A = Ok A'
           ∧ column_zero A' (m_padding_idx this)
           ∧ ∀ i j, j ≠ m_padding_idx this → El.Get A' i j = El.Get A i j)
  ∧ (padding_guard cfg this = true → supported_elem_type cfg (El.elem A) = true →
     El.Width A ≤ m_padding_idx this →
     zero_out_padding cfg this A = Undefined).
Proof.
  destruct (zero_out_padding_spec cfg this A) as (Hfalse & Htrue & Hthrow & Hother).
  split; [exact Hfalse|]. split; [exact Hthrow|]. split.
  - intros Hg Hs Hlt. destruct (Htrue Hg Hs Hlt) as (A' & HA' & _ & Hz).
    exists A'. split; [exact HA'|]. split; [exact Hz|]. exact (Hother A' HA').
  - intros Hg Hs Hge. unfold zero_out_padding.
    rewrite Hg, (zero_pad_embedding_supported _ _ _ Hs).
    unfold El.Zero_column. rewrite bool_decide_eq_false_2; [reflexivity|lia].
Qed.

(** X1.  The padding block, applied to the matrix of values of the
    weights, returns normally exactly when the guard fails, or the
    element type of the matrix is one the dispatch knows and
    [padding_idx] is below the width of the matrix. *)
Theorem zero_out_padding_returns_iff cfg this A :
  returns_normally (zero_out_padding cfg this A)
  ↔ padding_guard cfg this = false
    ∨ (supported_elem_type cfg (El.elem A) = true ∧ m_padding_idx this < El.Width A).
Proof.
  destruct (zero_out_padding_cases cfg this A) as (Hfalse & Hthrow & Hok & Hundef).
  split.
  - intros [r Hr].
    destruct (padding_guard cfg this) eqn:Hg; [|left; reflexivity].
    right. destruct (supported_elem_type cfg (El.elem A)) eqn:Hs.
    + split; [reflexivity|].
      destruct (Z_lt_le_dec (m_padding_idx this) (El.Width A)) as [Hlt|Hge]; [exact Hlt|].
      rewrite (Hundef eq_refl eq_refl Hge) in Hr. discriminate.
    + rewrite (Hthrow eq_refl eq_refl) in Hr. discriminate.
  - intros [Hg|[Hs Hlt]].
    + exists A. exact (Hfalse Hg).
    + destruct (padding_guard cfg this) eqn:Hg.
      * destruct (Hok eq_refl Hs Hlt) as (A' & HA' & _). exists A'. exact HA'.
      * exists A. exact (Hfalse eq_refl).
Qed.

(** X2.  The padding block throws its error "Could not determine type
    for embedding" exactly when the guard holds and the element type of
    the matrix is none the dispatch knows; with the guard failing, a
    matrix of such a type passes the block unnoticed and unchanged. *)
Theorem zero_out_padding_type_error_iff cfg this A :
  (zero_out_padding cfg this A = Throw could_not_determine_type
   ↔ padding_guard cfg this = true ∧ supported_elem_type cfg (El.elem A) = false)
  ∧ (padding_guard cfg this = false →
     supported_elem_type cfg (El.elem A) = false →
     zero_out_padding cfg this A = Ok A).
Proof.
  destruct (zero_out_padding_cases cfg this A) as (Hfalse & Hthrow & Hok & Hundef).
  split; [split|].
  - intros He.
    destruct (padding_guard cfg this) eqn:Hg.
    + split; [reflexivity|].
      destruct (supported_elem_type cfg (El.elem A)) eqn:Hs; [|reflexivity].
      destruct (Z_lt_le_dec (m_padding_idx this) (El.Width A)) as [Hlt|Hge].
      * destruct (Hok eq_refl eq_refl Hlt) as (A' & HA' & _). congruence.
      * rewrite (Hundef eq_refl eq_refl Hge) in He. discriminate.
    + rewrite (Hfalse eq_refl) in He. discriminate.
  - intros [Hg Hs]. exact (Hthrow Hg Hs).
  - intros Hg _. exact (Hfalse Hg).
Qed.

(** X8.  With a negative padding index, the default [-1] of the
    constructor among them, the guard fails: the padding block takes no
    view and looks at no element type, and hands the matrix back as it
    is, whatever its element type and its width. *)
Theorem zero_out_padding_negative_padding_idx cfg this A :
  m_padding_idx this < 0 →
  padding_guard cfg this = false ∧ zero_out_padding cfg this A = Ok A.
Proof.
  intros Hneg.
  assert (Hg : padding_guard cfg this = false).
  { unfold padding_guard. rewrite (bool_decide_eq_false_2 (0 ≤ m_padding_idx this)) by lia.
    reflexivity. }
  split; [exact Hg|]. unfold zero_out_padding. rewrite Hg. reflexivity.
Qed.

(** X13.  The padding block on a matrix of floats or doubles, for an
    embedding dimension in the range of [El::Int], in terms of the
    members of the layer: a padding index outside [0, embedding_dim)
    leaves the matrix as it is; one inside that is a column of the
    matrix has its column zeroed and no other entry changed; one inside
    that is no column of the matrix, and only such a one, takes the view
    outside of the matrix.  The error of the dispatch is not thrown. *)
Theorem zero_out_padding_float_double cfg this A :
  El.elem A = El.t_float ∨ El.elem A = El.t_double →
  0 ≤ m_embedding_dim this ≤ El.Int_MAX cfg →
  (¬ 0 ≤ m_padding_idx this < m_embedding_dim this → zero_out_padding cfg this A = Ok A)
  ∧ (0 ≤ m_padding_idx this < m_embedding_dim this →
     m_padding_idx this < El.Width A →
     ∃ A', zero_out_padding cfg this A = Ok A'
           ∧ column_zero A' (m_padding_idx this)
           ∧ ∀ i j, j ≠ m_padding_idx this → El.Get A' i j = El.Get A i j)
  ∧ (zero_out_padding cfg this A = Undefined
     ↔ 0 ≤ m_padding_idx this
       ∧ El.Width A ≤ m_padding_idx this < m_embedding_dim this)
  ∧ zero_out_padding cfg this A ≠ Throw could_not_determine_type.
Proof.
  intros HT Hdim.
  destruct (zero_out_padding_cases cfg this A) as (Hfalse & _ & Hok & Hundef).
  assert (Hs : supported_elem_type cfg (El.elem A) = true).
  { unfold supported_elem_type. destruct HT as [-> | ->]; reflexivity. }
  pose proof (padding_guard_embedding_dim cfg this Hdim) as Hguard.
  destruct (padding_guard cfg this) eqn:Hg.
  - assert (Hin : 0 ≤ m_padding_idx this < m_embedding_dim this)
      by (apply Hguard; reflexivity).
    split; [tauto|]. split; [intros _ Hlt; exact (Hok eq_refl Hs Hlt)|].
    destruct (Z_lt_le_dec (m_padding_idx this) (El.Width A)) as [Hlt|Hge].
    + destruct (Hok eq_refl Hs Hlt) as (A' & HA' & _). rewrite HA'.
      split; [split; [discriminate|lia]|discriminate].
    + rewrite (Hundef eq_refl Hs Hge).
      split; [split; [lia|reflexivity]|discriminate].
  - assert (Hout : ¬ 0 ≤ m_padding_idx this < m_embedding_dim this).
    { intros Hin. apply Hguard in Hin. discriminate. }
    split; [intros _; exact (Hfalse eq_refl)|]. split; [tauto|].
    rewrite (Hfalse eq_refl).
    split; [split; [discriminate|lia]|discriminate].
Qed.

End embedding_padding_block.

Lemma zero_out_padding_returns_iff_witness :
  returns_normally
    (embedding_layer.zero_out_padding build64 (embedding_example 3 4 1 [7]) workspace_example).
Proof.
  apply (zero_out_padding_returns_iff build64 (embedding_example 3 4 1 [7]) workspace_example).
  right. split; reflexivity.
Defined.

Lemma zero_out_padding_type_error_iff_witness :
  embedding_layer.zero_out_padding build64 (embedding_example 3 4 1 [7])
    (El.mkMatrix (El.t_other 0) 4 3 star_star (λ _ _, 1%float))
  = Throw could_not_determine_type.
Proof.
  apply (zero_out_padding_type_error_iff build64 (embedding_example 3 4 1 [7])
           (El.mkMatrix (El.t_other 0) 4 3 star_star (λ _ _, 1%float))).
  split; reflexivity.
Defined.

Lemma zero_out_padding_negative_padding_idx_witness :
  embedding_layer.zero_out_padding build64 (embedding_example 3 4 (-1) [7])
    (El.mkMatrix (El.t_other 0) 4 3 star_star (λ _ _, 1%float))
  = Ok (El.mkMatrix (El.t_other 0) 4 3 star_star (λ _ _, 1%float)).
Proof.
  apply (zero_out_padding_negative_padding_idx build64 (embedding_example 3 4 (-1) [7])).
  vm_compute. reflexivity.
Defined.

Lemma zero_out_padding_float_double_witness :
  embedding_layer.zero_out_padding build64 (embedding_example 3 4 3 [7]) workspace_example
  = Undefined
  ∧ ∃ A', embedding_layer.zero_out_padding build64 (embedding_example 3 4 1 [7])
            workspace_example = Ok A'
          ∧ column_zero A' 1.
Proof.
  split.
  - apply (zero_out_padding_float_double build64 (embedding_example 3 4 3 [7])
             workspace_example).
    + left. reflexivity.
    + vm_compute. split; discriminate.
    + vm_compute. repeat split; discriminate.
  - destruct (zero_out_padding_float_double build64 (embedding_example 3 4 1 [7])
                workspace_example) as (_ & Hzero & _).
    + left. reflexivity.
    + vm_compute. split; discriminate.
    + destruct Hzero as (A' & HA' & Hcol & _).
      * vm_compute. split; [discriminate|reflexivity].
      * vm_compute. reflexivity.
      * exists A'. split; [exact HA' | exact Hcol].
Defined.
